(** * TRI backend: invoice numbering, orders and payment verification

    A shallow embedding of [src/main.py] (the FastAPI handlers) and of the
    constrained models of [src/schemas.py].

    The handlers talk to a MongoDB database through the module-level
    handle [db] and read the wall clock.  Each database call and each
    clock read is one operation of a small program monad [prog]; the
    operations are given their meaning on an explicit store, one
    operation at a time, so that a request can be run alone ([run]) or
    interleaved with other requests at the granularity the real system
    has ([exec]).

    Doubles are the kernel's binary64 numbers.  Python's [sum] is taken
    as the plain left-to-right addition of doubles. *)

From Stdlib Require Import ZArith String Ascii List Floats Lia.
From Stdlib Require Import Decimal DecimalFacts DecimalString DecimalZ.
From stdpp Require Import gmap strings list sorting.

Local Open Scope Z_scope.

(** ** Python string building *)

Module Py.

(** [str(z)] and [f"{z}"] for an [int]. *)
Definition str_int (z : Z) : string := NilZero.string_of_int (Z.to_int z).

(** Digits of [d], left-padded with zeros up to [width] digits; never
    shortened. *)
Definition zfill (width : nat) (d : uint) : uint :=
  Nat.iter (width - nb_digits d) D0 d.

(** [format(z, "05d")]: sign-aware zero padding to a minimal field
    width of 5, the sign counting for one column. *)
Definition format_05d (z : Z) : string :=
  match Z.to_int z with
  | Pos d => NilZero.string_of_uint (zfill 5 d)
  | Neg d => String "-" (NilZero.string_of_uint (zfill 4 d))
  end.

(** [s[-k:]] *)
Definition last_chars (k : nat) (s : string) : string :=
  substring (String.length s - k) k s.

(** [a or b] on an optional string: [None] and the empty string are
    falsy. *)
Definition or_else (a : option string) (b : string) : string :=
  match a with
  | Some (String c s) => String c s
  | _ => b
  end.

(** [float(z)] for an [int]: the nearest double, ties to even;
    [OverflowError] ([None]) when that is not finite. *)
Definition float_of_int (z : Z) : option float :=
  match binary_normalize prec emax z 0 false with
  | S754_infinity _ => None
  | sf => Some (SF2Prim sf)
  end.

(** [x * q] for a [float] and an [int]. *)
Definition float_mul_int (x : float) (q : Z) : option float :=
  match float_of_int q with
  | Some y => Some (x * y)%float
  | None => None
  end.

Definition newline : string := String (ascii_of_nat 10) EmptyString.
Definition dquote : string := String (ascii_of_nat 34) EmptyString.

(** [str.join] with the empty separator. *)
Definition join (l : list string) : string :=
  fold_right String.append EmptyString l.

(** ["0" * k] *)
Definition zeros (k : nat) : string := Nat.iter k (String "0") EmptyString.

(** [int(s)] for a decimal numeral with an optional minus sign. *)
Definition int_of_str (s : string) : option Z :=
  Z.of_int <$> NilZero.int_of_string s.

(** The decimal digits of [z], sign dropped. *)
Definition digits_of (z : Z) : uint :=
  match Z.to_int z with Pos d | Neg d => d end.

Fixpoint no_slash (s : string) : Prop :=
  match s with
  | EmptyString => True
  | String c s' => c <> "/"%char /\ no_slash s'
  end.

End Py.

(** ** Request models (pydantic classes of [main.py]) *)

Record CartItem := {
  product_id : string;
  title : string;
  quantity : Z;
  price : float
}.

Record OrderIn := {
  user_email : string;
  items : list CartItem
}.

Record VerifyPaymentIn := {
  order_id : string;
  payment_id : option string;
  signature : option string
}.

(** ** Documents *)

Record datetime := {
  instant : Z;      (* milliseconds since the epoch *)
  year : Z;
  month : Z;
  day : Z
}.

(** The value under ["_id"]: the [ObjectId] the driver assigned, or the
    string [list_orders] replaces it with in its response. *)
Inductive id_value :=
| ObjectId (hex : string)
| IdStr (s : string).

Definition str_id (i : id_value) : string :=
  match i with ObjectId hex => hex | IdStr s => s end.

#[global] Instance id_value_eq_dec : EqDecision id_value.
Proof. solve_decision. Defined.

(** A document of the [order] collection, as the handlers write and read
    it.  [fields] is the dictionary a handler builds: every key may be
    absent ([None]), which is what [dict.get] observes.  A stored document
    is such a dictionary together with the ["_id"] the driver gave it.
    The item dictionaries are those of [CartItem.model_dump()] and carry
    the four fields of [CartItem]. *)
Module Order.
Record fields := {
  user_email : option string;
  items : option (list CartItem);
  amount : option float;
  status : option string;
  created_at : option datetime;
  updated_at : option datetime;
  order_id : option string;
  payment_id : option string;
  invoice_number : option string
}.

Record doc := { _id : id_value; body : fields }.

(** The [$set] document of an [update_one]: the keys to overwrite. *)
Record setdoc := {
  set_status : option string;
  set_payment_id : option string;
  set_invoice_number : option string;
  set_updated_at : option datetime;
  set_order_id : option string
}.

Definition overwrite {A} (new old : option A) : option A :=
  match new with Some x => Some x | None => old end.

Definition apply_set (u : setdoc) (d : doc) : doc :=
  let o := body d in
  {| _id := _id d;
     body :=
       {| user_email := user_email o;
          items := items o;
          amount := amount o;
          status := overwrite (set_status u) (status o);
          created_at := created_at o;
          updated_at := overwrite (set_updated_at u) (updated_at o);
          order_id := overwrite (set_order_id u) (order_id o);
          payment_id := overwrite (set_payment_id u) (payment_id o);
          invoice_number :=
            overwrite (set_invoice_number u) (invoice_number o) |} |}.
End Order.

Coercion Order.body : Order.doc >-> Order.fields.

(** A document of the [invoicesequence] collection, without its ["_id"]
    (the key it is stored under). *)
Module InvoiceSequence.
Record doc := { last_number : option Z }.
End InvoiceSequence.

(** ** The database *)

(** Modelled from the spec: [db], the module-level handle that
    [database.py] exports ([database.py] is not among the sources).  It is
    [None] when the service is not configured and a document store
    otherwise; the store holds the two collections the handlers use, the
    orders and the singleton counter record.  [order] keeps its documents
    in insertion order; [invoicesequence] is keyed by ["_id"]. *)
Record Database := {
  order : list Order.doc;
  invoicesequence : gmap string InvoiceSequence.doc
}.

Inductive exn :=
| HTTPException (status_code : Z) (detail : string)
| TypeError            (* subscripting [db] when it is [None] *)
| OverflowError        (* int too large for a float, or for BSON *)
| DuplicateKeyError.   (* insert of an ["_id"] already in the collection *)

(** What the outside world contributes to one operation: the wall clock
    (local and UTC) and the [ObjectId] the driver would generate. *)
Record env := {
  clock_local : datetime;
  clock_utc : datetime;
  new_oid : string
}.

(** The operations the handlers call on the two collections, with the
    meaning the MongoDB driver gives them. *)
Module Mongo.

(** BSON integers are at most 8 bytes. *)
Definition int64 (z : Z) : bool := (- 2 ^ 63 <=? z) && (z <? 2 ^ 63).

Definition encodable (o : Order.fields) : bool :=
  forallb (fun i => int64 (quantity i)) (default [] (Order.items o)).

Definition has_order_id (oid : string) (o : Order.doc) : bool :=
  bool_decide (Order.order_id o = Some oid).

Definition has_id (i : id_value) (o : Order.doc) : bool :=
  bool_decide (Order._id o = i).

Definition has_email (email : string) (o : Order.doc) : bool :=
  bool_decide (Order.user_email o = Some email).

(** [find_one({"order_id": oid})]: the first match in natural order. *)
Definition find_one (oid : string) (c : list Order.doc) : option Order.doc :=
  List.find (has_order_id oid) c.

(** [update_one({"_id": i}, {"$set": u})]: the first match is updated in
    place; nothing happens when there is none. *)
Fixpoint update_one (i : id_value) (u : Order.setdoc) (c : list Order.doc)
  : list Order.doc :=
  match c with
  | [] => []
  | o :: c' =>
      if has_id i o then Order.apply_set u o :: c'
      else o :: update_one i u c'
  end.

(** [insert_one(doc)]: the driver adds a fresh ["_id"], encodes the
    document and the server appends it, refusing a duplicate key. *)
Definition insert_one (i : id_value) (o : Order.fields) (c : list Order.doc)
  : exn + list Order.doc :=
  if negb (encodable o) then inl OverflowError
  else if existsb (has_id i) c then inl DuplicateKeyError
  else inr (c ++ [{| Order._id := i; Order.body := o |}]).

(** Sort position of ["created_at"]: a missing field sorts as null,
    below every date. *)
Definition created_le (a b : Order.doc) : Prop :=
  match Order.created_at a, Order.created_at b with
  | None, _ => True
  | Some _, None => False
  | Some x, Some y => instant x <= instant y
  end.

Definition newest_first (a b : Order.doc) : Prop := created_le b a.

#[global] Instance created_le_dec a b : Decision (created_le a b).
Proof.
  unfold created_le.
  destruct (Order.created_at a), (Order.created_at b); apply _.
Defined.

#[global] Instance newest_first_dec a b : Decision (newest_first a b).
Proof. unfold newest_first. apply _. Defined.

(** [find({"user_email": email}).sort("created_at", -1).limit(n)].
    The server leaves the order of documents with equal keys open; the
    model fixes it by a merge sort. *)
Definition find_sort_limit (email : string) (n : nat) (c : list Order.doc)
  : list Order.doc :=
  take n (merge_sort newest_first (List.filter (has_email email) c)).

(** Modelled from the spec: the store's atomic find-and-increment,
    [find_one_and_update({"_id": id}, {"$inc": {"last_number": 1}},
    upsert=True, return_document=True)].  In one indivisible step it
    creates the record when it is missing (upsert: [last_number] starts
    at 0), adds exactly 1 and reads back the value after the increment. *)
Definition find_one_and_update_inc (id : string)
    (c : gmap string InvoiceSequence.doc)
  : InvoiceSequence.doc * gmap string InvoiceSequence.doc :=
  let old := default {| InvoiceSequence.last_number := None |} (c !! id) in
  let new := {| InvoiceSequence.last_number :=
                  Some (default 0 (InvoiceSequence.last_number old) + 1) |} in
  (new, <[id := new]> c).

End Mongo.

(** ** Operations and programs *)

Inductive op :=
| db_is_None
| order_find_one (oid : string)
| order_insert_one (doc : Order.fields)
| order_update_one (i : id_value) (u : Order.setdoc)
| order_find_sort_limit (email : string) (n : nat)
| invoicesequence_find_one_and_update (id : string)
| datetime_now
| datetime_now_utc.

Definition res (o : op) : Type :=
  match o with
  | db_is_None => bool
  | order_find_one _ => option Order.doc
  | order_insert_one _ => id_value
  | order_update_one _ _ => unit
  | order_find_sort_limit _ _ => list Order.doc
  | invoicesequence_find_one_and_update _ => InvoiceSequence.doc
  | datetime_now => datetime
  | datetime_now_utc => datetime
  end.

(** One operation against the world.  With [db = None] every collection
    access raises. *)
Definition exec_op (o : op) (e : env) (db : option Database)
  : (exn + res o) * option Database :=
  match o return (exn + res o) * option Database with
  | db_is_None => (inr (bool_decide (db = None)), db)
  | datetime_now => (inr (clock_local e), db)
  | datetime_now_utc => (inr (clock_utc e), db)
  | order_find_one oid =>
      match db with
      | None => (inl TypeError, db)
      | Some d => (inr (Mongo.find_one oid (order d)), db)
      end
  | order_insert_one doc =>
      match db with
      | None => (inl TypeError, db)
      | Some d =>
          let i := ObjectId (new_oid e) in
          match Mongo.insert_one i doc (order d) with
          | inl err => (inl err, db)
          | inr c =>
              (inr i, Some {| order := c; invoicesequence := invoicesequence d |})
          end
      end
  | order_update_one i u =>
      match db with
      | None => (inl TypeError, db)
      | Some d =>
          (inr tt, Some {| order := Mongo.update_one i u (order d);
                           invoicesequence := invoicesequence d |})
      end
  | order_find_sort_limit email n =>
      match db with
      | None => (inl TypeError, db)
      | Some d => (inr (Mongo.find_sort_limit email n (order d)), db)
      end
  | invoicesequence_find_one_and_update id =>
      match db with
      | None => (inl TypeError, db)
      | Some d =>
          let '(doc, c) := Mongo.find_one_and_update_inc id (invoicesequence d) in
          (inr doc, Some {| order := order d; invoicesequence := c |})
      end
  end.

Inductive prog (A : Type) : Type :=
| Ret (a : A)
| Raise (e : exn)
| Do (o : op) (k : res o -> prog A).

Arguments Ret {A} a.
Arguments Raise {A} e.
Arguments Do {A} o k.

Fixpoint bind {A B} (p : prog A) (f : A -> prog B) : prog B :=
  match p with
  | Ret a => f a
  | Raise e => Raise e
  | Do o k => Do o (fun r => bind (k r) f)
  end.

#[global] Instance prog_ret : MRet prog := @Ret.
#[global] Instance prog_bind : MBind prog := fun A B f p => bind p f.
#[global] Instance prog_fmap : FMap prog :=
  fun A B f p => bind p (fun a => Ret (f a)).

(** A single operation as a program. *)
Definition call (o : op) : prog (res o) := Do o Ret.

(** Run one request to completion, alone.  [E n] is what the world
    contributes to the [n]-th operation. *)
Fixpoint run {A} (E : nat -> env) (p : prog A) (n : nat) (db : option Database)
  : (exn + A) * option Database * nat :=
  match p with
  | Ret a => (inr a, db, n)
  | Raise e => (inl e, db, n)
  | Do o k =>
      match exec_op o (E n) db with
      | (inl e, db') => (inl e, db', S n)
      | (inr r, db') => run E (k r) (S n) db'
      end
  end.

(** ** Responses *)

Module OrderCreated.
Record t := {
  _id : string;
  order_id : string;
  amount : float;
  currency : string;
  status : string
}.
End OrderCreated.

Module PaymentVerified.
Record t := { status : string; invoice_number : string }.
End PaymentVerified.

(** ** The handlers of [main.py] *)

Definition invoice_format (year num : Z) : string :=
  "TRI/" +:+ Py.str_int year +:+ "/" +:+ Py.format_05d num.

Definition _generate_invoice_number : prog string :=
  seq ← call (invoicesequence_find_one_and_update "seq");
  let num := default 1 (InvoiceSequence.last_number seq) in
  now ← call datetime_now;
  mret (invoice_format (year now) num).

(** [sum] over the generator [i.price * i.quantity]: the running total
    starts at 0 and each product is added, in list order, as a double. *)
Fixpoint sum_products (acc : float) (l : list CartItem) : option float :=
  match l with
  | [] => Some acc
  | i :: l' =>
      match Py.float_mul_int (price i) (quantity i) with
      | Some x => sum_products (acc + x)%float l'
      | None => None
      end
  end.

Definition _order_total (items : list CartItem) : option float :=
  sum_products 0%float items.

Definition create_order (payload : OrderIn) : prog OrderCreated.t :=
  none ← call db_is_None;
  if (none : bool) then Raise (HTTPException 500 "Database not configured")
  else
    match _order_total (items payload) with
    | None => Raise OverflowError
    | Some amount =>
        created ← call datetime_now_utc;
        updated ← call datetime_now_utc;
        let doc :=
          {| Order.user_email := Some (user_email payload);
             Order.items := Some (items payload);
             Order.amount := Some amount;
             Order.status := Some "created";
             Order.created_at := Some created;
             Order.updated_at := Some updated;
             Order.order_id := None;
             Order.payment_id := None;
             Order.invoice_number := None |} in
        inserted_id ← call (order_insert_one doc);
        let gateway_order_id := "order_" +:+ Py.last_chars 8 (str_id inserted_id) in
        _ ← call (order_update_one inserted_id
                    {| Order.set_status := None;
                       Order.set_payment_id := None;
                       Order.set_invoice_number := None;
                       Order.set_updated_at := None;
                       Order.set_order_id := Some gateway_order_id |});
        mret {| OrderCreated._id := str_id inserted_id;
                OrderCreated.order_id := gateway_order_id;
                OrderCreated.amount := amount;
                OrderCreated.currency := "INR";
                OrderCreated.status := "created" |}
    end.

Definition verify_payment (payload : VerifyPaymentIn) : prog PaymentVerified.t :=
  none ← call db_is_None;
  if (none : bool) then Raise (HTTPException 500 "Database not configured")
  else
    found ← call (order_find_one (order_id payload));
    match found with
    | None => Raise (HTTPException 404 "Order not found")
    | Some order =>
        invoice_number ← _generate_invoice_number;
        let pay :=
          Py.or_else (payment_id payload)
            ("pay_" +:+ Py.last_chars 6 (str_id (Order._id order))) in
        now ← call datetime_now_utc;
        _ ← call (order_update_one (Order._id order)
                    {| Order.set_status := Some "paid";
                       Order.set_payment_id := Some pay;
                       Order.set_invoice_number := Some invoice_number;
                       Order.set_updated_at := Some now;
                       Order.set_order_id := None |});
        mret {| PaymentVerified.status := "paid";
                PaymentVerified.invoice_number := invoice_number |}
    end.

(** The loop body of [list_orders]: [o["_id"] = str(o["_id"])]. *)
Definition stringify_id (o : Order.doc) : Order.doc :=
  {| Order._id := IdStr (str_id (Order._id o)); Order.body := Order.body o |}.

Definition list_orders (email : string) : prog (list Order.doc) :=
  none ← call db_is_None;
  if (none : bool) then Raise (HTTPException 500 "Database not configured")
  else
    cur ← call (order_find_sort_limit email 50);
    mret (stringify_id <$> (cur : list Order.doc)).

(** ** The invoice page

    Two formatters of the Python runtime are left abstract: the
    fixed-point rendering [format(x, ".2f")] of a double and
    [strftime("%Y-%m-%d")]. *)

Section Invoice.

Variable format_2f : float -> string.
Variable strftime_Ymd : datetime -> string.

(** One table row; the amount column multiplies a double by an int. *)
Definition item_row (i : CartItem) : option string :=
  match Py.float_mul_int (price i) (quantity i) with
  | None => None
  | Some line =>
      Some ("<tr><td>" +:+ title i
            +:+ "</td><td style='text-align:center'>" +:+ Py.str_int (quantity i)
            +:+ "</td><td style='text-align:right'>₹" +:+ format_2f (price i)
            +:+ "</td><td style='text-align:right'>₹" +:+ format_2f line
            +:+ "</td></tr>")
  end.

Fixpoint item_rows (l : list CartItem) : option (list string) :=
  match l with
  | [] => Some []
  | i :: l' =>
      match item_row i with
      | None => None
      | Some r =>
          match item_rows l' with
          | None => None
          | Some rs => Some (r :: rs)
          end
      end
  end.

Definition class_attr (name : string) : string :=
  "class=" +:+ Py.dquote +:+ name +:+ Py.dquote.

Definition invoice_html (inv billed_to date items_html total : string) : string :=
  Py.join (map (fun l => l +:+ Py.newline) [
    EmptyString;
    "    <html>";
    "      <head>";
    "        <meta charset='utf-8' />";
    "        <title>Invoice " +:+ inv +:+ "</title>";
    "        <style>";
    "          body { font-family: -apple-system, Segoe UI, Roboto, sans-serif; padding: 24px; }";
    "          .card { max-width: 720px; margin: 0 auto; border: 1px solid #eee; border-radius: 10px; overflow: hidden; }";
    "          .header { background: #0ea5e9; color: white; padding: 16px 20px; }";
    "          .section { padding: 16px 20px; }";
    "          table { width: 100%; border-collapse: collapse; }";
    "          th, td { padding: 8px; border-bottom: 1px solid #f1f5f9; }";
    "          th { text-align: left; background:#f8fafc; }";
    "          .right { text-align:right; }";
    "        </style>";
    "      </head>";
    "      <body>";
    "        <div " +:+ class_attr "card" +:+ ">";
    "          <div " +:+ class_attr "header" +:+ ">";
    "            <h2>TRI Invoice</h2>";
    "            <div>" +:+ inv +:+ "</div>";
    "          </div>";
    "          <div " +:+ class_attr "section" +:+ ">";
    "            <div><strong>Billed To:</strong> " +:+ billed_to +:+ "</div>";
    "            <div><strong>Date:</strong> " +:+ date +:+ "</div>";
    "          </div>";
    "          <div " +:+ class_attr "section" +:+ ">";
    "            <table>";
    "              <thead>";
    "                <tr><th>Description</th><th style='text-align:center'>Qty</th><th class='right'>Rate</th><th class='right'>Amount</th></tr>";
    "              </thead>";
    "              <tbody>";
    "                " +:+ items_html;
    "                <tr><td colspan=" +:+ Py.dquote +:+ "3" +:+ Py.dquote
      +:+ " class='right'><strong>Total</strong></td><td class='right'><strong>₹"
      +:+ total +:+ "</strong></td></tr>";
    "              </tbody>";
    "            </table>";
    "          </div>";
    "        </div>";
    "      </body>";
    "    </html>"
  ]) +:+ "    ".

Definition get_invoice (order_id : string) : prog string :=
  none ← call db_is_None;
  if (none : bool) then Raise (HTTPException 500 "Database not configured")
  else
    found ← call (order_find_one order_id);
    match (found : option Order.doc) with
    | None => Raise (HTTPException 404 "Order not found")
    | Some order =>
        let inv := default "PENDING" (Order.invoice_number order) in
        match item_rows (default [] (Order.items order)) return prog string with
        | None => Raise OverflowError
        | Some rows =>
            let items_html := Py.join rows in
            now ← call datetime_now;
            mret (invoice_html inv
                    (default "None" (Order.user_email order))
                    (strftime_Ymd now)
                    items_html
                    (format_2f (default 0%float (Order.amount order))))
        end
    end.

End Invoice.

(** ** The constrained models of [schemas.py] *)

Module schemas.
(** [CartItem] of [schemas.py]: [quantity: int = Field(..., ge=1)] and
    [price: float = Field(..., ge=0)]. *)
Definition CartItem_constraints (i : CartItem) : bool :=
  (1 <=? quantity i) && (0 <=? price i)%float.
End schemas.

(** ** The server: requests served side by side

    Every request is a program; the server holds a pool of them and the
    scheduler picks which one performs its next operation.  One operation
    is one step: nothing can happen between the read and the write of a
    single database call, anything can happen between two calls. *)

Inductive request :=
| CreateOrder (payload : OrderIn)
| VerifyPayment (payload : VerifyPaymentIn)
| ListOrders (email : string)
| GetInvoice (order_id : string).

Inductive response :=
| Created (r : OrderCreated.t)
| Paid (r : PaymentVerified.t)
| Orders (l : list Order.doc)
| Html (s : string).

Record event := {
  actor : nat;
  operation : op;
  outcome : exn + res operation
}.

Record config := {
  db : option Database;
  pool : list (prog response);
  log : list event
}.

Definition step (i : nat) (e : env) (c : config) : config :=
  match pool c !! i with
  | Some (Do o k) =>
      let r := exec_op o e (db c) in
      {| db := r.2;
         pool := <[i := match r.1 with inl err => Raise err | inr v => k v end]> (pool c);
         log := log c ++ [{| actor := i; operation := o; outcome := r.1 |}] |}
  | _ => c
  end.

(** A schedule names, turn by turn, the request that moves and what the
    world contributes to its operation. *)
Definition exec (sched : list (nat * env)) (c : config) : config :=
  foldl (fun c s => step s.1 s.2 c) c sched.

(** The number an allocation handed out, as [_generate_invoice_number]
    reads it off the returned document. *)
Definition issued (ev : event) : option Z :=
  match operation ev as o return exn + res o -> option Z with
  | invoicesequence_find_one_and_update _ =>
      fun r => match r with
               | inr seq => Some (default 1 (InvoiceSequence.last_number seq))
               | inl _ => None
               end
  | _ => fun _ => None
  end (outcome ev).

Section Server.

Variable format_2f : float -> string.
Variable strftime_Ymd : datetime -> string.

Definition handle (r : request) : prog response :=
  match r with
  | CreateOrder payload => Created <$> create_order payload
  | VerifyPayment payload => Paid <$> verify_payment payload
  | ListOrders email => Orders <$> list_orders email
  | GetInvoice order_id => Html <$> get_invoice format_2f strftime_Ymd order_id
  end.

Definition start (db : option Database) (reqs : list request) : config :=
  {| db := db; pool := map handle reqs; log := [] |}.

End Server.

(** ** Vocabulary of the statements *)

(** The current value of the counter: 0 while the record, or its field,
    does not exist. *)
Definition last_number_of (d : Database) : Z :=
  default 0 (invoicesequence d !! "seq" ≫= InvoiceSequence.last_number).

Definition counter (db : option Database) : Z :=
  match db with Some d => last_number_of d | None => 0 end.

(** The database after one allocation. *)
Definition allocated (d : Database) : Database :=
  {| order := order d;
     invoicesequence :=
       <["seq" := {| InvoiceSequence.last_number := Some (last_number_of d + 1) |}]>
         (invoicesequence d) |}.

Definition is_alloc (o : op) : bool :=
  match o with invoicesequence_find_one_and_update _ => true | _ => false end.

(** A program that never touches the counter. *)
Fixpoint alloc_free {A} (p : prog A) : Prop :=
  match p with
  | Do o k => is_alloc o = false /\ forall r, alloc_free (k r)
  | _ => True
  end.

(** A payment response carries number [n]. *)
Definition carries (n : Z) (a : response) : Prop :=
  match a with
  | Paid r => exists y, PaymentVerified.invoice_number r = invoice_format y n
  | _ => True
  end.

Definition carries_none (a : response) : Prop :=
  match a with Paid _ => False | _ => True end.

(** A request that holds number [n]: it allocates no more, and a payment
    response it gives carries [n]. *)
Fixpoint settled (n : Z) (p : prog response) : Prop :=
  match p with
  | Ret a => carries n a
  | Raise _ => True
  | Do o k => is_alloc o = false /\ forall r, settled n (k r)
  end.

(** A request that holds no number yet: it gives no payment response
    before it allocates, allocates from the ["seq"] record only, and holds
    the number it was handed from then on. *)
Fixpoint pending (p : prog response) : Prop :=
  match p with
  | Ret a => carries_none a
  | Raise _ => True
  | Do o k =>
      match o return (res o -> prog response) -> (res o -> Prop) -> Prop with
      | invoicesequence_find_one_and_update id =>
          fun k _ =>
            id = "seq" /\
            forall seq, settled (default 1 (InvoiceSequence.last_number seq)) (k seq)
      | _ => fun _ rec => forall r, rec r
      end k (fun r => pending (k r))
  end.

Definition thread_ok (m : option Z) (p : prog response) : Prop :=
  match m with None => pending p | Some n => settled n p end.

(** The invariant of the pool: [ms] lists the number each request holds.
    Held numbers are at most the counter and pairwise different, and the
    log shows the numbers handed out so far, one after the other. *)
Record pool_inv (c0 : Z) (c : config) (ms : list (option Z)) : Prop := {
  inv_threads : Forall2 thread_ok ms (pool c);
  inv_bound : forall i n, ms !! i = Some (Some n) -> n <= counter (db c);
  inv_unique : forall i j n, ms !! i = Some (Some n) -> ms !! j = Some (Some n) -> i = j;
  inv_start : c0 <= counter (db c);
  inv_log : omap issued (log c) = seqZ (c0 + 1) (counter (db c) - c0)
}.

(** What the server guarantees of the [order] collection: ["_id"] is
    unique and every stored integer fits BSON. *)
Record stored_ok (d : Database) : Prop := {
  ids_unique : NoDup (map Order._id (order d));
  ints_encodable : Forall (fun o : Order.doc => Mongo.encodable o = true) (order d)
}.

(** The products [price * quantity], item by item, and their sum as
    doubles added from left to right, starting from 0. *)
Definition line_amounts (l : list CartItem) : option (list float) :=
  mapM (fun i => Py.float_mul_int (price i) (quantity i)) l.

Definition float_sum (xs : list float) : float := foldl PrimFloat.add 0%float xs.

Definition gateway_order_id (i : id_value) : string :=
  "order_" +:+ Py.last_chars 8 (str_id i).

(** The document [create_order] leaves in the collection. *)
Definition stored_order (E : nat -> env) (n : nat) (payload : OrderIn) (amount : float)
  : Order.doc :=
  let i := ObjectId (new_oid (E (3 + n)%nat)) in
  {| Order._id := i;
     Order.body :=
       {| Order.user_email := Some (user_email payload);
          Order.items := Some (items payload);
          Order.amount := Some amount;
          Order.status := Some "created";
          Order.created_at := Some (clock_utc (E (1 + n)%nat));
          Order.updated_at := Some (clock_utc (E (2 + n)%nat));
          Order.order_id := Some (gateway_order_id i);
          Order.payment_id := None;
          Order.invoice_number := None |} |}.

(** The [$set] document of [verify_payment]. *)
Definition paid_set (payload : VerifyPaymentIn) (o : Order.doc)
    (invoice_number : string) (now : datetime) : Order.setdoc :=
  {| Order.set_status := Some "paid";
     Order.set_payment_id :=
       Some (Py.or_else (payment_id payload)
               ("pay_" +:+ Py.last_chars 6 (str_id (Order._id o))));
     Order.set_invoice_number := Some invoice_number;
     Order.set_updated_at := Some now;
     Order.set_order_id := None |}.

(** The database after [verify_payment] found [o] and ran alone from the
    [n]-th operation. *)
Definition verified (E : nat -> env) (n : nat) (payload : VerifyPaymentIn)
    (o : Order.doc) (d : Database) : Database :=
  {| order :=
       Mongo.update_one (Order._id o)
         (paid_set payload o
            (invoice_format (year (clock_local (E (3 + n)%nat))) (last_number_of d + 1))
            (clock_utc (E (4 + n)%nat)))
         (order d);
     invoicesequence := invoicesequence (allocated d) |}.

(** ** Concrete data for the examples *)

Module Fixture.
Definition moment (y t : Z) : datetime :=
  {| instant := t; year := y; month := 1; day := 1 |}.

Definition world (n : nat) : env :=
  {| clock_local := moment 2026 (Z.of_nat n);
     clock_utc := moment 2026 (Z.of_nat n);
     new_oid := "65a1b2c3d4e5f607182" +:+ Py.format_05d (Z.of_nat n) |}.

(** A clock that passes New Year between the second and the fourth
    operation. *)
Definition new_year (n : nat) : env :=
  {| clock_local := moment (if (n <? 2)%nat then 2025 else 2026) (Z.of_nat n);
     clock_utc := moment (if (n <? 2)%nat then 2025 else 2026) (Z.of_nat n);
     new_oid := "65a1b2c3d4e5f607182" +:+ Py.format_05d (Z.of_nat n) |}.

Definition cart : list CartItem :=
  [ {| product_id := "p1"; title := "Widget"; quantity := 2; price := 10.5 |};
    {| product_id := "p2"; title := "Gadget"; quantity := 1; price := 3 |} ].

Definition order_in : OrderIn := {| user_email := "a@b.c"; items := cart |}.

(** Items that [schemas.CartItem] forbids. *)
Definition bad_cart : list CartItem :=
  [ {| product_id := "p1"; title := "Widget"; quantity := 0; price := 10 |};
    {| product_id := "p2"; title := "Gadget"; quantity := 2; price := (-2.5) |} ].

Definition bad_order_in : OrderIn := {| user_email := "a@b.c"; items := bad_cart |}.

Definition an_order : Order.doc :=
  {| Order._id := ObjectId "65a1b2c3d4e5f60718293a43";
     Order.body :=
       {| Order.user_email := Some "a@b.c";
          Order.items := Some cart;
          Order.amount := Some 24%float;
          Order.status := Some "created";
          Order.created_at := Some (moment 2026 1);
          Order.updated_at := Some (moment 2026 2);
          Order.order_id := Some "order_18293a43";
          Order.payment_id := None;
          Order.invoice_number := None |} |}.

Definition empty_db : Database := {| order := []; invoicesequence := ∅ |}.

Definition shop : Database := {| order := [an_order]; invoicesequence := ∅ |}.

Definition counter_at (c : Z) : Database :=
  {| order := [an_order];
     invoicesequence := {[ "seq" := {| InvoiceSequence.last_number := Some c |} ]} |}.

Definition pay : VerifyPaymentIn :=
  {| order_id := "order_18293a43"; payment_id := None; signature := None |}.

Definition pay_unknown : VerifyPaymentIn :=
  {| order_id := "order_00000000"; payment_id := None; signature := None |}.

(** Two requests taking turns, one operation each, six turns apiece. *)
Definition alternate : list (nat * env) :=
  imap (fun k i => (i, world k)) (concat (replicate 6 [0%nat; 1%nat])).

Definition format_2f (x : float) : string := "0.00".
Definition strftime_Ymd (t : datetime) : string := "2026-01-01".
End Fixture.

(** ** More data for the examples *)

Module Sample.
(** An order document with nothing but its ids. *)
Definition bare_order : Order.doc :=
  {| Order._id := ObjectId "65a1b2c3d4e5f607000000aa";
     Order.body :=
       {| Order.user_email := None;
          Order.items := None;
          Order.amount := None;
          Order.status := None;
          Order.created_at := None;
          Order.updated_at := None;
          Order.order_id := Some "order_000000aa";
          Order.payment_id := None;
          Order.invoice_number := None |} |}.

Definition bare_shop : Database := {| order := [bare_order]; invoicesequence := ∅ |}.

(** An older order whose ["_id"] ends in the eight characters the next
    generated ["_id"] ends in. *)
Definition twin : Order.doc :=
  {| Order._id := ObjectId "0123456789abcdef18200003";
     Order.body :=
       {| Order.user_email := Some "x@y.z";
          Order.items := Some [];
          Order.amount := Some 0%float;
          Order.status := Some "created";
          Order.created_at := Some (Fixture.moment 2025 1);
          Order.updated_at := Some (Fixture.moment 2025 1);
          Order.order_id := Some "order_18200003";
          Order.payment_id := None;
          Order.invoice_number := None |} |}.

Definition twin_shop : Database := {| order := [twin]; invoicesequence := ∅ |}.

Definition pay_with (pid : option string) : VerifyPaymentIn :=
  {| order_id := "order_18293a43"; payment_id := pid; signature := None |}.
End Sample.

(** ** Vocabulary of the further properties *)

(** [needle] occurs in [hay]. *)
Definition occurs_in (needle hay : string) : Prop :=
  ∃ before after, hay = before +:+ needle +:+ after.

(** The fixed text of the invoice page, between the places where
    [get_invoice] fills something in. *)
Module Page.
Definition to_title : string :=
  Py.join (map (fun l => l +:+ Py.newline)
    [EmptyString;
     "    <html>";
     "      <head>";
     "        <meta charset='utf-8' />"]) +:+ "        <title>Invoice ".

Definition title_to_header : string :=
  "</title>" +:+ Py.newline +:+
  Py.join (map (fun l => l +:+ Py.newline)
    ["        <style>";
     "          body { font-family: -apple-system, Segoe UI, Roboto, sans-serif; padding: 24px; }";
     "          .card { max-width: 720px; margin: 0 auto; border: 1px solid #eee; border-radius: 10px; overflow: hidden; }";
     "          .header { background: #0ea5e9; color: white; padding: 16px 20px; }";
     "          .section { padding: 16px 20px; }";
     "          table { width: 100%; border-collapse: collapse; }";
     "          th, td { padding: 8px; border-bottom: 1px solid #f1f5f9; }";
     "          th { text-align: left; background:#f8fafc; }";
     "          .right { text-align:right; }";
     "        </style>";
     "      </head>";
     "      <body>";
     "        <div " +:+ class_attr "card" +:+ ">";
     "          <div " +:+ class_attr "header" +:+ ">";
     "            <h2>TRI Invoice</h2>"]) +:+ "            <div>".

Definition header_to_billed : string :=
  "</div>" +:+ Py.newline +:+
  Py.join (map (fun l => l +:+ Py.newline)
    ["          </div>";
     "          <div " +:+ class_attr "section" +:+ ">"])
  +:+ "            <div><strong>Billed To:</strong> ".

Definition billed_to_date : string :=
  "</div>" +:+ Py.newline +:+ "            <div><strong>Date:</strong> ".

Definition date_to_rows : string :=
  "</div>" +:+ Py.newline +:+
  Py.join (map (fun l => l +:+ Py.newline)
    ["          </div>";
     "          <div " +:+ class_attr "section" +:+ ">";
     "            <table>";
     "              <thead>";
     "                <tr><th>Description</th><th style='text-align:center'>Qty</th><th class='right'>Rate</th><th class='right'>Amount</th></tr>";
     "              </thead>";
     "              <tbody>"]) +:+ "                ".

Definition rows_to_total : string :=
  Py.newline +:+ "                <tr><td colspan=" +:+ Py.dquote +:+ "3" +:+ Py.dquote
  +:+ " class='right'><strong>Total</strong></td><td class='right'><strong>₹".

Definition after_total : string :=
  "</strong></td></tr>" +:+ Py.newline +:+
  Py.join (map (fun l => l +:+ Py.newline)
    ["              </tbody>";
     "            </table>";
     "          </div>";
     "        </div>";
     "      </body>";
     "    </html>"]) +:+ "    ".
End Page.

(** A double that is not NaN and not below zero: a zero of either sign, a
    positive number or plus infinity. *)
Definition nonneg_sf (x : spec_float) : Prop :=
  match x with
  | S754_zero _ => True
  | S754_finite s _ _ => s = false
  | S754_infinity s => s = false
  | S754_nan => False
  end.

(** ** Running a program *)

Lemma run_bind {A B} E (p : prog A) (f : A -> prog B) n db :
  run E (p ≫= f) n db =
  match run E p n db with
  | (inl e, db', n') => (inl e, db', n')
  | (inr a, db', n') => run E (f a) n' db'
  end.
Proof.
  revert n db. induction p as [a|e|o k IH]; intros n db; try reflexivity.
  change (Do o k ≫= f) with (Do o (fun r => k r ≫= f)).
  simpl. destruct (exec_op o (E n) db) as [[e|r] db']; [reflexivity|]. apply IH.
Qed.

Lemma run_generate_invoice_number E n d :
  run E _generate_invoice_number n (Some d) =
  (inr (invoice_format (year (clock_local (E (S n)))) (last_number_of d + 1)),
   Some (allocated d), S (S n)).
Proof.
  unfold _generate_invoice_number. cbn.
  unfold allocated, last_number_of.
  destruct (invoicesequence d !! "seq") as [[[c|]]|]; reflexivity.
Qed.

Lemma last_number_allocated d : last_number_of (allocated d) = last_number_of d + 1.
Proof. unfold last_number_of at 1, allocated. simpl. rewrite lookup_insert_eq. reflexivity. Qed.

(** ** Decimal numerals and zero padding *)

Module PyFacts.

Lemma digits_of_nonnil z : Py.digits_of z ≠ Nil.
Proof.
  unfold Py.digits_of. destruct z; simpl; try apply DecimalPos.Unsigned.to_uint_nonnil.
  discriminate.
Qed.

Lemma iter_D0_nonnil k d : d ≠ Nil → Nat.iter k D0 d ≠ Nil.
Proof. intros H. destruct k; simpl; [exact H | discriminate]. Qed.

Lemma string_of_uint_nonnil d : d ≠ Nil → NilZero.string_of_uint d = NilEmpty.string_of_uint d.
Proof. destruct d; [congruence | reflexivity ..]. Qed.

Lemma string_of_uint_iter_D0 k d :
  d ≠ Nil →
  NilZero.string_of_uint (Nat.iter k D0 d) = Py.zeros k +:+ NilZero.string_of_uint d.
Proof.
  intros H.
  rewrite !string_of_uint_nonnil by auto using iter_D0_nonnil.
  induction k as [|k IH]; simpl; [reflexivity | now rewrite IH].
Qed.

Lemma length_string_of_uint d :
  String.length (NilEmpty.string_of_uint d) = nb_digits d.
Proof. induction d; simpl; [reflexivity | now f_equal ..]. Qed.

Lemma of_uint_iter_D0 k d : Z.of_uint (Nat.iter k D0 d) = Z.of_uint d.
Proof. induction k as [|k IH]; simpl; [reflexivity | exact IH]. Qed.

Lemma length_app (a b : string) :
  String.length (a +:+ b) = (String.length a + String.length b)%nat.
Proof. induction a as [|c a IH]; simpl; [reflexivity | now rewrite IH]. Qed.

Lemma length_zeros k : String.length (Py.zeros k) = k.
Proof. induction k as [|k IH]; simpl; [reflexivity | now rewrite IH]. Qed.

Lemma str_int_nonneg z :
  0 <= z → Py.str_int z = NilZero.string_of_uint (Py.digits_of z).
Proof. unfold Py.str_int, Py.digits_of. destruct z; simpl; try reflexivity; lia. Qed.

(** Zero padding of a non-negative number: zeros in front of its
    decimal digits, up to five characters, and no digit dropped. *)
Lemma format_05d_nonneg z :
  0 <= z →
  Py.format_05d z
  = Py.zeros (5 - String.length (Py.str_int z)) +:+ Py.str_int z.
Proof.
  intros Hz. rewrite str_int_nonneg by assumption.
  pose proof (digits_of_nonnil z) as Hd.
  rewrite (string_of_uint_nonnil _ Hd), length_string_of_uint.
  rewrite <- (string_of_uint_nonnil _ Hd), <- string_of_uint_iter_D0 by assumption.
  unfold Py.format_05d, Py.digits_of, Py.zfill.
  destruct z; simpl; try reflexivity; lia.
Qed.

Lemma int_of_str_format_05d z : Py.int_of_str (Py.format_05d z) = Some z.
Proof.
  unfold Py.int_of_str, Py.format_05d.
  pose proof (digits_of_nonnil z) as Hd. unfold Py.digits_of in Hd.
  pose proof (DecimalZ.of_to z) as Hz.
  destruct (Z.to_int z) as [d|d].
  - pose proof (iter_D0_nonnil (5 - nb_digits d) d Hd) as Hp.
    change (NilZero.string_of_uint (Py.zfill 5 d))
      with (NilZero.string_of_int (Pos (Py.zfill 5 d))).
    rewrite NilZero.isi; [| unfold Py.zfill; congruence | discriminate].
    simpl. unfold Py.zfill. rewrite of_uint_iter_D0. simpl in Hz. now rewrite Hz.
  - pose proof (iter_D0_nonnil (4 - nb_digits d) d Hd) as Hp.
    change (String "-" (NilZero.string_of_uint (Py.zfill 4 d)))
      with (NilZero.string_of_int (Neg (Py.zfill 4 d))).
    rewrite NilZero.isi; [| discriminate | unfold Py.zfill; congruence].
    simpl. unfold Py.zfill. rewrite of_uint_iter_D0. simpl in Hz. now rewrite Hz.
Qed.

Lemma format_05d_inj z z' : Py.format_05d z = Py.format_05d z' → z = z'.
Proof.
  intros H. apply (f_equal Py.int_of_str) in H.
  rewrite !int_of_str_format_05d in H. congruence.
Qed.

Lemma length_format_05d z :
  0 <= z →
  String.length (Py.format_05d z) = Nat.max 5 (String.length (Py.str_int z)).
Proof.
  intros Hz. rewrite format_05d_nonneg, length_app, length_zeros by assumption. lia.
Qed.

End PyFacts.

Module FormatFacts.
Import PyFacts.

Lemma no_slash_uint d : Py.no_slash (NilEmpty.string_of_uint d).
Proof. induction d; simpl; auto; split; auto; discriminate. Qed.

Lemma no_slash_str_int z : Py.no_slash (Py.str_int z).
Proof.
  unfold Py.str_int. destruct (Z.to_int z) as [d|d]; simpl.
  - destruct d; simpl; try (split; [discriminate|]); auto using no_slash_uint.
  - split; [discriminate|].
    destruct d; simpl; try (split; [discriminate|]); auto using no_slash_uint.
Qed.

Lemma split_at_slash a b c d :
  Py.no_slash a → Py.no_slash c →
  a +:+ String "/" b = c +:+ String "/" d → a = c ∧ b = d.
Proof.
  revert c. induction a as [|x a IH]; intros [|y c]; simpl.
  - intros _ _ [= ->]. auto.
  - intros _ [Hy _] [= <- _]. congruence.
  - intros [Hx _] _ [= -> _]. congruence.
  - intros [_ Ha] [_ Hc] [= -> H]. destruct (IH c Ha Hc H) as [-> ->]. auto.
Qed.

Lemma str_int_inj z z' : Py.str_int z = Py.str_int z' → z = z'.
Proof.
  unfold Py.str_int. intros H. apply DecimalZ.to_int_inj.
  assert (Hn : ∀ x, Z.to_int x ≠ Pos Nil ∧ Z.to_int x ≠ Neg Nil).
  { intros x. pose proof (digits_of_nonnil x) as Hx. unfold Py.digits_of in Hx.
    destruct (Z.to_int x); split; congruence. }
  apply (f_equal NilZero.int_of_string) in H.
  rewrite !NilZero.isi in H by apply Hn. congruence.
Qed.

Lemma invoice_format_inj y n y' n' :
  invoice_format y n = invoice_format y' n' → y = y' ∧ n = n'.
Proof.
  unfold invoice_format. intros H.
  change ("TRI/" +:+ ?s) with (String "T" (String "R" (String "I" (String "/" s)))) in H.
  injection H as H.
  change ("/" +:+ ?s) with (String "/" s) in H.
  apply split_at_slash in H; auto using no_slash_str_int.
  destruct H as [Hy Hn]. split; [now apply str_int_inj | now apply format_05d_inj].
Qed.
End FormatFacts.

(** ** Integers that fit BSON convert to doubles *)

Module FloatFacts.

Lemma digits2_size p : digits2_pos p = Pos.size p.
Proof. induction p as [p IH|p IH|]; simpl; [now rewrite IH ..| reflexivity]. Qed.

Lemma Zdigits2_bound m k : 0 <= k → Z.abs m < 2 ^ k → Zdigits2 m <= k.
Proof.
  intros Hk Hm.
  assert (H : ∀ p, Z.pos p < 2 ^ k → Z.pos (digits2_pos p) <= k).
  { intros p Hp.
    rewrite digits2_size.
    pose proof (Pos.size_le p) as Hle.
    assert (Hz : 2 ^ Z.pos (Pos.size p) <= 2 * Z.pos p).
    { change (2 * Z.pos p) with (Z.pos (p~0)).
      change 2 with (Z.pos 2) at 1. rewrite <- Pos2Z.inj_pow.
      apply Pos2Z.pos_le_pos. exact Hle. }
    destruct (Z_le_gt_dec (Z.pos (Pos.size p)) k) as [?|Hgt]; [assumption|].
    exfalso.
    assert (2 ^ (k + 1) <= 2 ^ Z.pos (Pos.size p)) by (apply Z.pow_le_mono_r; lia).
    rewrite Z.pow_add_r in H by lia. lia. }
  destruct m as [|p|p]; simpl in *; [lia | auto | auto].
Qed.

Lemma shr_1_abs mrs : Z.abs (shr_m (shr_1 mrs)) <= Z.abs (shr_m mrs).
Proof. destruct mrs as [[|[p|p|]|[p|p|]] r s]; simpl; lia. Qed.

Lemma iter_shr_1_abs p mrs :
  Z.abs (shr_m (SpecFloat.iter_pos shr_1 p mrs)) <= Z.abs (shr_m mrs).
Proof.
  revert mrs. induction p as [p IH|p IH|]; intros mrs; simpl.
  - etransitivity; [apply IH|]. etransitivity; [apply IH|]. apply shr_1_abs.
  - etransitivity; [apply IH|]. apply IH.
  - apply shr_1_abs.
Qed.

Lemma shr_m_of_loc m l : shr_m (shr_record_of_loc m l) = m.
Proof. destruct l as [|[]]; reflexivity. Qed.

Lemma shr_fexp_bound m e l B :
  0 <= B → Z.abs m < 2 ^ B →
  Z.abs (shr_m (shr_fexp 53 1024 m e l).1) <= Z.abs m
  ∧ (shr_fexp 53 1024 m e l).2 <= Z.max e (Z.max (B + e - 53) (-1074)).
Proof.
  intros HB Hm. pose proof (Zdigits2_bound m B HB Hm) as Hd.
  unfold shr_fexp, shr, fexp, emin.
  destruct (Z.max (Zdigits2 m + e - 53) (3 - 1024 - 53) - e) as [|p|p] eqn:Hn; simpl.
  - rewrite shr_m_of_loc. lia.
  - split; [|lia].
    etransitivity; [apply iter_shr_1_abs|]. rewrite shr_m_of_loc. lia.
  - rewrite shr_m_of_loc. lia.
Qed.

Lemma round_nearest_even_abs m l :
  Z.abs (round_nearest_even m l) <= Z.abs m + 1.
Proof. destruct l as [|[]]; simpl; try lia. destruct (Z.even m); lia. Qed.

Lemma binary_round_aux_finite sx mx ex lx :
  Z.abs mx < 2 ^ 64 → ex <= 0 →
  ∀ s, binary_round_aux 53 1024 sx mx ex lx ≠ S754_infinity s.
Proof.
  intros Hm He s. unfold binary_round_aux.
  pose proof (shr_fexp_bound mx ex lx 64 ltac:(lia) Hm) as [H1 H2].
  destruct (shr_fexp 53 1024 mx ex lx) as [mrs' e']. simpl in H1, H2.
  set (m2 := round_nearest_even (shr_m mrs') (loc_of_shr_record mrs')).
  assert (Hm2 : Z.abs m2 < 2 ^ 65).
  { pose proof (round_nearest_even_abs (shr_m mrs') (loc_of_shr_record mrs')).
    fold m2 in H. change (2 ^ 65) with (2 * 2 ^ 64). lia. }
  pose proof (shr_fexp_bound m2 e' loc_Exact 65 ltac:(lia) Hm2) as [_ H3].
  destruct (shr_fexp 53 1024 m2 e' loc_Exact) as [mrs'' e'']. simpl in H3.
  destruct (shr_m mrs''); try discriminate.
  destruct (Z.leb_spec e'' (1024 - 53)); [discriminate | lia].
Qed.

Lemma pos_iter_xO p k : Z.pos (Pos.iter xO p k) = Z.pos p * 2 ^ Z.pos k.
Proof.
  induction k as [|k IH] using Pos.peano_ind.
  - simpl. lia.
  - rewrite Pos.iter_succ, Pos2Z.inj_succ, Z.pow_succ_r by lia.
    rewrite Pos2Z.inj_xO, IH. lia.
Qed.

Lemma pos_lt_pow_digits p : Z.pos p < 2 ^ Z.pos (digits2_pos p).
Proof.
  rewrite digits2_size. change 2 with (Z.pos 2). rewrite <- Pos2Z.inj_pow.
  apply Pos2Z.pos_lt_pos, Pos.size_gt.
Qed.

Lemma binary_round_finite sx mx :
  Z.pos mx < 2 ^ 64 → ∀ s, binary_round 53 1024 sx mx 0 ≠ S754_infinity s.
Proof.
  intros Hm s. unfold binary_round, shl_align, fexp, emin.
  pose proof (pos_lt_pow_digits mx) as Hd.
  destruct (Z.max (Z.pos (digits2_pos mx) + 0 - 53) (3 - 1024 - 53) - 0)
    as [|k|k] eqn:Hk; try (apply binary_round_aux_finite; simpl; lia).
  apply binary_round_aux_finite; [|lia].
  simpl Z.abs. rewrite pos_iter_xO.
  assert (Z.pos k <= 53 - Z.pos (digits2_pos mx)) by lia.
  assert (2 ^ Z.pos k <= 2 ^ (53 - Z.pos (digits2_pos mx))) by (apply Z.pow_le_mono_r; lia).
  assert (2 ^ Z.pos (digits2_pos mx) * 2 ^ (53 - Z.pos (digits2_pos mx)) = 2 ^ 53).
  { rewrite <- Z.pow_add_r by lia. f_equal. lia. }
  assert (2 ^ 53 < 2 ^ 64) by reflexivity.
  nia.
Qed.

(** An integer that fits BSON's 8 bytes always converts to a double. *)
Lemma float_of_int_int64 z :
  Mongo.int64 z = true → ∃ x, Py.float_of_int z = Some x.
Proof.
  unfold Mongo.int64. intros H. apply andb_prop in H as [Hlo Hhi].
  apply Z.leb_le in Hlo. apply Z.ltb_lt in Hhi.
  unfold Py.float_of_int, prec, emax.
  destruct z as [|p|p]; simpl binary_normalize.
  - eauto.
  - pose proof (binary_round_finite false p ltac:(lia)) as Hf.
    destruct (binary_round 53 1024 false p 0); eauto. now destruct (Hf s).
  - pose proof (binary_round_finite true p ltac:(lia)) as Hf.
    destruct (binary_round 53 1024 true p 0); eauto. now destruct (Hf s).
Qed.

End FloatFacts.

Arguments Py.float_of_int : simpl never.
Arguments Py.float_mul_int : simpl never.

(** ** The collections *)

Module MongoFacts.

Lemma update_one_ids i u c :
  map Order._id (Mongo.update_one i u c) = map Order._id c.
Proof.
  induction c as [|o c IH]; simpl; [reflexivity|].
  destruct (Mongo.has_id i o); simpl; [reflexivity | now rewrite IH].
Qed.

Lemma update_one_encodable i u c :
  Forall (fun o : Order.doc => Mongo.encodable o = true) c →
  Forall (fun o : Order.doc => Mongo.encodable o = true) (Mongo.update_one i u c).
Proof.
  induction 1 as [|o c Ho Hc IH]; simpl; [constructor|].
  destruct (Mongo.has_id i o); constructor; auto.
Qed.

Lemma existsb_has_id i c :
  existsb (Mongo.has_id i) c = false → i ∉ map Order._id c.
Proof.
  induction c as [|o c IH]; simpl; intros H.
  - apply not_elem_of_nil.
  - apply orb_false_elim in H as [Ho Hc].
    apply not_elem_of_cons. split; [|auto].
    unfold Mongo.has_id in Ho. apply bool_decide_eq_false in Ho. congruence.
Qed.

Lemma insert_one_ok i o c c' :
  NoDup (map Order._id c) →
  Forall (fun o : Order.doc => Mongo.encodable o = true) c →
  Mongo.insert_one i o c = inr c' →
  NoDup (map Order._id c') ∧
  Forall (fun o : Order.doc => Mongo.encodable o = true) c'.
Proof.
  unfold Mongo.insert_one. intros Hn Hf.
  destruct (Mongo.encodable o) eqn:He; simpl; [|discriminate].
  destruct (existsb (Mongo.has_id i) c) eqn:Hx; [discriminate|].
  intros [= <-]. split.
  - rewrite map_app. simpl. apply NoDup_app. split; [assumption|]. split.
    + intros x Hx1 Hx2. apply list_elem_of_singleton in Hx2 as ->.
      now apply existsb_has_id in Hx.
    + apply NoDup_singleton.
  - apply Forall_app. split; [assumption|]. constructor; [exact He | constructor].
Qed.

(** Updating the document that [find_one] returned: it is still the
    first match, now with the new fields. *)
Lemma find_one_update_one oid u c o :
  NoDup (map Order._id c) →
  Order.set_order_id u = None →
  Mongo.find_one oid c = Some o →
  Mongo.find_one oid (Mongo.update_one (Order._id o) u c)
  = Some (Order.apply_set u o).
Proof.
  unfold Mongo.find_one. intros Hn Hu.
  assert (Hsame : ∀ x, Mongo.has_order_id oid (Order.apply_set u x)
                       = Mongo.has_order_id oid x).
  { intros x. unfold Mongo.has_order_id. simpl. now rewrite Hu. }
  induction c as [|h c IH]; simpl; [discriminate|].
  apply NoDup_cons in Hn as [Hh Hn].
  destruct (Mongo.has_order_id oid h) eqn:Hm.
  - intros [= <-]. unfold Mongo.has_id. rewrite bool_decide_eq_true_2 by reflexivity.
    simpl. now rewrite Hsame, Hm.
  - intros Hf. unfold Mongo.has_id.
    destruct (bool_decide (Order._id h = Order._id o)) eqn:Hid.
    + exfalso. apply bool_decide_eq_true in Hid. apply Hh. rewrite Hid.
      apply list_elem_of_fmap_2. apply find_some in Hf as [Hin _].
      now apply list_elem_of_In.
    + simpl. rewrite Hm. now apply IH.
Qed.

End MongoFacts.

Lemma exec_op_stored_ok o e d r d' :
  stored_ok d → exec_op o e (Some d) = (r, Some d') → stored_ok d'.
Proof.
  intros [Hn Hf]. destruct o; simpl; intros H.
  all: try (injection H as _ <-; now split).
  all: try (destruct (Mongo.insert_one _ _ _) as [err|c] eqn:Hi;
            injection H as _ <-; [now split|];
            destruct (MongoFacts.insert_one_ok _ _ _ _ Hn Hf Hi); now split).
  all: try (injection H as _ <-; split; simpl;
            [now rewrite MongoFacts.update_one_ids
            |now apply MongoFacts.update_one_encodable]).
Qed.

Lemma run_verify_payment_unknown E n d payload :
  Mongo.find_one (order_id payload) (order d) = None →
  run E (verify_payment payload) n (Some d)
  = (inl (HTTPException 404 "Order not found"), Some d, S (S n)).
Proof.
  intros H. unfold verify_payment. cbn. now rewrite H.
Qed.

Lemma stored_ok_empty : stored_ok {| order := []; invoicesequence := ∅ |}.
Proof. split; simpl; constructor. Qed.

Module SortFacts.

Lemma created_le_trans : Transitive Mongo.created_le.
Proof.
  intros a b c. unfold Mongo.created_le.
  destruct (Order.created_at a), (Order.created_at b), (Order.created_at c);
    try tauto; lia.
Qed.

Lemma created_le_total : Total Mongo.created_le.
Proof.
  intros a b. unfold Mongo.created_le.
  destruct (Order.created_at a), (Order.created_at b); try tauto; lia.
Qed.

Lemma newest_first_trans : Transitive Mongo.newest_first.
Proof. intros a b c Hab Hbc. unfold Mongo.newest_first in *.
  exact (created_le_trans _ _ _ Hbc Hab). Qed.

Lemma newest_first_total : Total Mongo.newest_first.
Proof. intros a b. unfold Mongo.newest_first. destruct (created_le_total a b); auto. Qed.

Lemma newest_first_stringify a b :
  Mongo.newest_first a b → Mongo.newest_first (stringify_id a) (stringify_id b).
Proof. exact id. Qed.

Lemma find_sort_limit_spec email n c :
  let l := Mongo.find_sort_limit email n c in
  (length l <= n)%nat
  ∧ StronglySorted Mongo.newest_first l
  ∧ (∀ o : Order.doc, o ∈ l → o ∈ c ∧ Order.user_email o = Some email)
  ∧ ∃ rest,
      List.filter (Mongo.has_email email) c ≡ₚ l ++ rest
      ∧ (∀ a b, a ∈ l → b ∈ rest → Mongo.newest_first a b)
      ∧ (rest ≠ [] → length l = n).
Proof.
  unfold Mongo.find_sort_limit.
  set (m := List.filter (Mongo.has_email email) c).
  set (s := merge_sort Mongo.newest_first m).
  assert (Hs : StronglySorted Mongo.newest_first (take n s ++ drop n s)).
  { rewrite take_drop.
  apply (@StronglySorted_merge_sort _ _ _ newest_first_trans newest_first_total). }
  assert (Hp : m ≡ₚ take n s ++ drop n s).
  { rewrite take_drop. symmetry. apply merge_sort_Permutation. }
  simpl. split; [apply firstn_le_length|].
  split; [eapply StronglySorted_app_1_l; exact Hs|].
  split.
  - intros o Ho.
    assert (Hm : o ∈ m) by (rewrite Hp; apply elem_of_app; auto).
    apply list_elem_of_In, filter_In in Hm as [Hin He].
    split; [now apply list_elem_of_In|].
    unfold Mongo.has_email in He. now apply bool_decide_eq_true in He.
  - exists (drop n s). split; [exact Hp|]. split.
    + intros a b. now apply StronglySorted_app_1_elem_of.
    + intros Hne. apply length_take_le.
      destruct (Nat.le_gt_cases n (length s)) as [?|Hlt]; [assumption|].
      exfalso. apply Hne. apply drop_ge. lia.
Qed.

End SortFacts.

(** ** The counter under interleaving *)

Lemma exec_op_other o e db :
  is_alloc o = false →
  ∀ d', (exec_op o e db).2 = Some d' →
  ∃ d, db = Some d ∧ invoicesequence d' = invoicesequence d.
Proof.
  intros Ho d'. destruct o; try discriminate; simpl;
    destruct db as [d|]; simpl; try discriminate; intros H.
  all: try (injection H as <-; eauto; fail).
  - destruct (Mongo.insert_one _ _ _); simpl in H; injection H as <-; eauto.
Qed.

Lemma exec_op_other_counter o e db :
  is_alloc o = false → counter (exec_op o e db).2 = counter db.
Proof.
  intros Ho. destruct (exec_op o e db).2 as [d'|] eqn:H.
  - destruct (exec_op_other o e db Ho d' H) as (d & -> & Hd).
    simpl. unfold last_number_of. now rewrite Hd.
  - destruct o; try discriminate; destruct db as [d|]; simpl in *; try discriminate; try reflexivity.
    destruct (Mongo.insert_one _ _ _); discriminate.
Qed.

Lemma issued_other i o r : is_alloc o = false → issued {| actor := i; operation := o; outcome := r |} = None.
Proof. destruct o; try discriminate; reflexivity. Qed.

Lemma thread_ok_next m o k r :
  is_alloc o = false → thread_ok m (Do o k) →
  thread_ok m (match r with inl err => Raise err | inr v => k v end).
Proof.
  intros Ho H. destruct r as [err|v]; [destruct m; exact I|].
  destruct m as [n|]; simpl in H.
  - apply H.
  - destruct o; try discriminate; apply H.
Qed.

Lemma exec_op_alloc e d :
  exec_op (invoicesequence_find_one_and_update "seq") e (Some d)
  = (inr {| InvoiceSequence.last_number := Some (last_number_of d + 1) |},
     Some (allocated d)).
Proof.
  unfold allocated, last_number_of. simpl.
  destruct (invoicesequence d !! "seq") as [[[x|]]|]; reflexivity.
Qed.

Lemma step_inv c0 c ms i e :
  pool_inv c0 c ms → ∃ ms', pool_inv c0 (step i e c) ms'.
Proof.
  intros [Ht Hb Hu Hs Hl]. unfold step.
  destruct (pool c !! i) as [p|] eqn:Hp; [|exists ms; now split].
  destruct p as [a|err|o k]; try (exists ms; now split).
  destruct (Forall2_lookup_r _ _ _ _ _ Ht Hp) as (m & Hm & Hok).
  destruct (is_alloc o) eqn:Ho.
  - (* the allocation itself *)
    destruct o; try discriminate.
    destruct m as [n|]; [simpl in Hok; destruct Hok; discriminate|].
    simpl in Hok. destruct Hok as [-> Hk].
    destruct (db c) as [d|] eqn:Hd.
    + exists (<[i := Some (last_number_of d + 1)]> ms).
      rewrite exec_op_alloc. simpl in Hb, Hs, Hl.
      assert (Hi : <[i := Some (last_number_of d + 1)]> ms !! i
                   = Some (Some (last_number_of d + 1))).
      { apply list_lookup_insert_eq. eauto using lookup_lt_Some. }
      split; simpl; rewrite ?last_number_allocated.
      * apply Forall2_insert; [exact Ht|].
        apply (Hk {| InvoiceSequence.last_number := Some (last_number_of d + 1) |}).
      * intros j n Hj.
        destruct (decide (i = j)) as [<-|Hne].
        -- rewrite Hi in Hj. injection Hj as <-. lia.
        -- rewrite list_lookup_insert_ne in Hj by assumption.
           specialize (Hb j n Hj). lia.
      * intros j1 j2 n H1 H2.
        destruct (decide (i = j1)) as [<-|Hn1], (decide (i = j2)) as [<-|Hn2];
          try reflexivity.
        -- rewrite Hi in H1. injection H1 as <-.
           rewrite list_lookup_insert_ne in H2 by assumption.
           specialize (Hb j2 _ H2). lia.
        -- rewrite Hi in H2. injection H2 as <-.
           rewrite list_lookup_insert_ne in H1 by assumption.
           specialize (Hb j1 _ H1). lia.
        -- rewrite list_lookup_insert_ne in H1, H2 by assumption. eauto.
      * lia.
      * rewrite omap_app, Hl. simpl.
        replace (last_number_of d + 1 - c0) with ((last_number_of d - c0) + 1) by lia.
        rewrite seqZ_app by lia. f_equal.
        rewrite seqZ_cons, seqZ_nil by lia. f_equal. lia.
    + exists ms. simpl in *. split; simpl; auto.
      * rewrite <- (list_insert_id ms i None Hm) at 1.
        apply Forall2_insert; [exact Ht | exact I].
      * rewrite omap_app, Hl. simpl. apply app_nil_r.
  - exists ms. split; simpl.
    + rewrite <- (list_insert_id ms i m Hm) at 1.
      apply Forall2_insert; [exact Ht|]. now apply thread_ok_next.
    + rewrite exec_op_other_counter by assumption. exact Hb.
    + exact Hu.
    + now rewrite exec_op_other_counter.
    + rewrite omap_app, Hl, exec_op_other_counter by assumption. simpl.
      rewrite issued_other by assumption. apply app_nil_r.
Qed.

Lemma exec_inv c0 sched c ms :
  pool_inv c0 c ms → ∃ ms', pool_inv c0 (exec sched c) ms'.
Proof.
  revert c ms. induction sched as [|[i e] sched IH]; intros c ms H; [eauto|].
  simpl. destruct (step_inv c0 c ms i e H) as [ms' H']. eauto.
Qed.

Section ServerFacts.

Variable format_2f : float -> string.
Variable strftime_Ymd : datetime -> string.

Lemma pending_handle r : pending (handle format_2f strftime_Ymd r).
Proof.
  destruct r as [p|p|email|oid]; simpl.
  - intros [|]; simpl; [exact I|].
    destruct (_order_total (items p)); simpl; [|exact I].
    intros; exact I.
  - intros [|]; simpl; [exact I|].
    intros [o|]; simpl; [|exact I].
    split; [reflexivity|]. intros seq. simpl. split; [reflexivity|].
    intros now. simpl. split; [reflexivity|]. intros t. simpl. split; [reflexivity|].
    intros _. simpl. now exists (year now).
  - intros [|]; simpl; [exact I|]. intros; exact I.
  - intros [|]; simpl; [exact I|].
    intros [o|]; simpl; [|exact I].
    destruct (item_rows _ _); simpl; [|exact I]. intros; exact I.
Qed.

Lemma start_inv db reqs :
  pool_inv (counter db) (start format_2f strftime_Ymd db reqs) (replicate (length reqs) None).
Proof.
  split; simpl.
  - induction reqs as [|r reqs IH]; simpl; constructor;
      [apply pending_handle | exact IH].
  - intros i n H. apply lookup_replicate in H. destruct H; discriminate.
  - intros i j n H. apply lookup_replicate in H. destruct H; discriminate.
  - lia.
  - rewrite Z.sub_diag. reflexivity.
Qed.

End ServerFacts.

(** ** Programs that leave the counter alone *)

Lemma exec_op_connected o e d : ∃ d', (exec_op o e (Some d)).2 = Some d'.
Proof.
  destruct o; simpl; eauto.
  all: destruct (Mongo.insert_one _ _ _); simpl; eauto.
Qed.

Lemma run_alloc_free {A} E (p : prog A) n d :
  alloc_free p →
  ∃ d', (run E p n (Some d)).1.2 = Some d' ∧ invoicesequence d' = invoicesequence d.
Proof.
  revert n d. induction p as [a|err|o k IH]; intros n d Hp; simpl; eauto.
  destruct Hp as [Ho Hk].
  destruct (exec_op_connected o (E n) d) as [d1 Hd1].
  destruct (exec_op_other o (E n) (Some d) Ho d1 Hd1) as (d0 & [= <-] & Hseq).
  destruct (exec_op o (E n) (Some d)) as [[err|r] db1]; simpl in Hd1; subst db1; simpl.
  - eauto.
  - destruct (IH r (S n) d1 (Hk r)) as (d' & Hrun & Hd'). exists d'. split; congruence.
Qed.

Lemma run_fmap {A B} (f : A → B) E (p : prog A) n db :
  run E (f <$> p) n db =
  match run E p n db with
  | (inl e, db', n') => (inl e, db', n')
  | (inr a, db', n') => (inr (f a), db', n')
  end.
Proof. apply (run_bind E p (fun a => Ret (f a))). Qed.

Lemma alloc_free_fmap {A B} (f : A → B) (p : prog A) :
  alloc_free p → alloc_free (f <$> p).
Proof.
  induction p as [a|err|o k IH]; simpl; auto.
  intros [Ho Hk]. split; [exact Ho|]. intros r. apply IH, Hk.
Qed.

Lemma alloc_free_create_order payload : alloc_free (create_order payload).
Proof.
  unfold create_order. simpl. split; [reflexivity|]. intros [|]; simpl; [exact I|].
  destruct (_order_total (items payload)); simpl; [|exact I].
  repeat (split; [reflexivity|]; intros ?; simpl). exact I.
Qed.

Lemma alloc_free_list_orders email : alloc_free (list_orders email).
Proof.
  unfold list_orders. simpl. split; [reflexivity|]. intros [|]; simpl; [exact I|].
  split; [reflexivity|]. intros ?. exact I.
Qed.

Lemma alloc_free_get_invoice f s oid : alloc_free (get_invoice f s oid).
Proof.
  unfold get_invoice. simpl. split; [reflexivity|]. intros [|]; simpl; [exact I|].
  split; [reflexivity|]. intros [o|]; simpl; [|exact I].
  destruct (item_rows f _); simpl; [|exact I].
  split; [reflexivity|]. intros ?. exact I.
Qed.

(** ** The handlers, run alone *)

Lemma run_verify_payment_found E n d payload o :
  Mongo.find_one (order_id payload) (order d) = Some o →
  run E (verify_payment payload) n (Some d)
  = (inr {| PaymentVerified.status := "paid";
            PaymentVerified.invoice_number :=
              invoice_format (year (clock_local (E (3 + n)%nat))) (last_number_of d + 1) |},
     Some (verified E n payload o d), (6 + n)%nat).
Proof.
  intros H. unfold verify_payment. cbn. rewrite H. cbn.
  unfold verified, allocated, last_number_of, paid_set.
  destruct (invoicesequence d !! "seq") as [[[x|]]|]; reflexivity.
Qed.

Lemma last_number_verified E n payload o d :
  last_number_of (verified E n payload o d) = last_number_of d + 1.
Proof. apply last_number_allocated. Qed.

Lemma stored_ok_verified E n payload o d :
  stored_ok d → stored_ok (verified E n payload o d).
Proof.
  intros [Hn Hf]. split; simpl.
  - now rewrite MongoFacts.update_one_ids.
  - now apply MongoFacts.update_one_encodable.
Qed.

Lemma find_one_verified E n payload o d :
  stored_ok d →
  Mongo.find_one (order_id payload) (order d) = Some o →
  Mongo.find_one (order_id payload) (order (verified E n payload o d))
  = Some (Order.apply_set
            (paid_set payload o
               (invoice_format (year (clock_local (E (3 + n)%nat))) (last_number_of d + 1))
               (clock_utc (E (4 + n)%nat))) o).
Proof.
  intros [Hn _] Hf. simpl. now apply MongoFacts.find_one_update_one.
Qed.

Lemma sum_products_spec acc l :
  sum_products acc l = foldl PrimFloat.add acc <$> line_amounts l.
Proof.
  revert acc. induction l as [|i l IH]; intros acc; simpl; [reflexivity|].
  unfold line_amounts in *. simpl.
  destruct (Py.float_mul_int (price i) (quantity i)) as [x|]; simpl; [|reflexivity].
  rewrite IH. destruct (mapM _ l); reflexivity.
Qed.

Lemma order_total_spec l : _order_total l = float_sum <$> line_amounts l.
Proof. apply sum_products_spec. Qed.

Lemma float_mul_int_int64 x q :
  Mongo.int64 q = true → ∃ y, Py.float_mul_int x q = Some y.
Proof.
  intros H. destruct (FloatFacts.float_of_int_int64 _ H) as [y Hy].
  unfold Py.float_mul_int. rewrite Hy. eauto.
Qed.

Lemma line_amounts_int64 l :
  forallb (fun i => Mongo.int64 (quantity i)) l = true →
  ∃ xs, line_amounts l = Some xs.
Proof.
  unfold line_amounts. induction l as [|i l IH]; simpl; intros H; [eauto|].
  apply andb_prop in H as [Hi Hl]. destruct (IH Hl) as [xs Hxs].
  destruct (float_mul_int_int64 (price i) _ Hi) as [y Hy].
  rewrite Hy. simpl. rewrite Hxs. simpl. eauto.
Qed.

Module CreateFacts.

Lemma update_one_last i u c o :
  i ∉ map Order._id c → Order._id o = i →
  Mongo.update_one i u (c ++ [o]) = c ++ [Order.apply_set u o].
Proof.
  intros Hi Ho. induction c as [|h c IH]; simpl.
  - unfold Mongo.has_id. now rewrite bool_decide_eq_true_2.
  - simpl in Hi. apply not_elem_of_cons in Hi as [Hh Hc].
    unfold Mongo.has_id at 1. rewrite bool_decide_eq_false_2 by congruence.
    now rewrite IH.
Qed.

End CreateFacts.

Lemma run_create_order E n d payload amount :
  _order_total (items payload) = Some amount →
  forallb (fun i => Mongo.int64 (quantity i)) (items payload) = true →
  existsb (Mongo.has_id (ObjectId (new_oid (E (3 + n)%nat)))) (order d) = false →
  run E (create_order payload) n (Some d)
  = (inr {| OrderCreated._id := new_oid (E (3 + n)%nat);
            OrderCreated.order_id := gateway_order_id (ObjectId (new_oid (E (3 + n)%nat)));
            OrderCreated.amount := amount;
            OrderCreated.currency := "INR";
            OrderCreated.status := "created" |},
     Some {| order := order d ++ [stored_order E n payload amount];
             invoicesequence := invoicesequence d |},
     (5 + n)%nat).
Proof.
  intros Ht Hq Hx. unfold create_order. cbn. rewrite Ht. cbn.
  unfold Mongo.insert_one, Mongo.encodable. cbn. cbn in Hx. rewrite Hq, Hx. cbn.
  rewrite CreateFacts.update_one_last;
    [reflexivity | now apply MongoFacts.existsb_has_id | reflexivity].
Qed.

Lemma create_order_returns E n db payload r db' n' :
  run E (create_order payload) n db = (inr r, db', n') →
  _order_total (items payload) = Some (OrderCreated.amount r).
Proof.
  unfold create_order. cbn.
  destruct (bool_decide (db = None)); cbn; [discriminate|].
  destruct (_order_total (items payload)) as [a|]; cbn; [|discriminate].
  destruct db as [d|]; cbn; [|discriminate].
  destruct (Mongo.insert_one _ _ _); cbn; [discriminate|].
  now intros [= <- _ _].
Qed.

Section InvoiceFacts.

Variable format_2f : float -> string.
Variable strftime_Ymd : datetime -> string.

Lemma item_rows_int64 l :
  forallb (fun i => Mongo.int64 (quantity i)) l = true →
  ∃ rows, item_rows format_2f l = Some rows.
Proof.
  induction l as [|i l IH]; simpl; intros H; [eauto|].
  apply andb_prop in H as [Hi Hl]. destruct (IH Hl) as [rows Hrows].
  destruct (float_mul_int_int64 (price i) _ Hi) as [y Hy].
  unfold item_row. rewrite Hy, Hrows. eauto.
Qed.

Lemma invoice_html_pending billed_to date items_html total :
  ∃ before between after,
    invoice_html "PENDING" billed_to date items_html total
    = before +:+ "<title>Invoice PENDING</title>"
      +:+ between +:+ "<div>PENDING</div>" +:+ after.
Proof.
  exists (Py.join (map (fun l => l +:+ Py.newline)
            [EmptyString;
             "    <html>";
             "      <head>";
             "        <meta charset='utf-8' />"]) +:+ "        ").
  exists (Py.newline +:+
          Py.join (map (fun l => l +:+ Py.newline)
            ["        <style>";
             "          body { font-family: -apple-system, Segoe UI, Roboto, sans-serif; padding: 24px; }";
             "          .card { max-width: 720px; margin: 0 auto; border: 1px solid #eee; border-radius: 10px; overflow: hidden; }";
             "          .header { background: #0ea5e9; color: white; padding: 16px 20px; }";
             "          .section { padding: 16px 20px; }";
             "          table { width: 100%; border-collapse: collapse; }";
             "          th, td { padding: 8px; border-bottom: 1px solid #f1f5f9; }";
             "          th { text-align: left; background:#f8fafc; }";
             "          .right { text-align:right; }";
             "        </style>";
             "      </head>";
             "      <body>";
             "        <div " +:+ class_attr "card" +:+ ">";
             "          <div " +:+ class_attr "header" +:+ ">";
             "            <h2>TRI Invoice</h2>"]) +:+ "            ").
  eexists. cbv. reflexivity.
Qed.

Lemma run_get_invoice E n d order_id o :
  stored_ok d →
  Mongo.find_one order_id (order d) = Some o →
  ∃ rows,
    item_rows format_2f (default [] (Order.items o)) = Some rows
    ∧ run E (get_invoice format_2f strftime_Ymd order_id) n (Some d)
      = (inr (invoice_html
                (default "PENDING" (Order.invoice_number o))
                (default "None" (Order.user_email o))
                (strftime_Ymd (clock_local (E (2 + n)%nat)))
                (Py.join rows)
                (format_2f (default 0%float (Order.amount o)))),
         Some d, (3 + n)%nat).
Proof.
  intros [_ Hf] Hfind.
  assert (Henc : Mongo.encodable o = true).
  { apply find_some in Hfind as [Hin _].
    rewrite Forall_forall in Hf. apply Hf. now apply list_elem_of_In. }
  destruct (item_rows_int64 _ Henc) as [rows Hrows].
  exists rows. split; [exact Hrows|].
  unfold get_invoice. cbn. rewrite Hfind. cbn. now rewrite Hrows.
Qed.

End InvoiceFacts.

Lemma stored_ok_shop : stored_ok Fixture.shop.
Proof.
  split; simpl.
  - apply NoDup_singleton.
  - repeat constructor.
Qed.

Lemma step_stored_ok i e c d :
  db c = Some d → stored_ok d →
  ∃ d', db (step i e c) = Some d' ∧ stored_ok d'.
Proof.
  intros Hdb Hok. unfold step.
  destruct (pool c !! i) as [[a|err|o k]|]; simpl; eauto.
  rewrite Hdb. destruct (exec_op_connected o e d) as [d1 Hd1].
  exists d1. split; [exact Hd1|].
  apply (exec_op_stored_ok o e d (exec_op o e (Some d)).1 d1 Hok).
  rewrite <- Hd1. now destruct (exec_op o e (Some d)).
Qed.

(** Whatever the requests and the schedule, the server keeps the [order]
    collection well formed. *)
Lemma exec_stored_ok sched c d :
  db c = Some d → stored_ok d →
  ∃ d', db (exec sched c) = Some d' ∧ stored_ok d'.
Proof.
  revert c d. induction sched as [|[i e] sched IH]; intros c d Hdb Hok; [eauto|].
  change (exec ((i, e) :: sched) c) with (exec sched (step i e c)).
  destruct (step_stored_ok i e c d Hdb Hok) as (d1 & Hd1 & Hok1). eauto.
Qed.

(** * The claims *)

(** C1.  The allocator is one database operation followed by a clock
    read: it adds exactly 1 to the counter and answers with the value
    after the increment.  Whatever requests the server runs side by side
    and however their operations interleave, the numbers handed out are,
    in order, the counter's start plus 1, plus 2, and so on, and no two
    finished payment verifications carry the same invoice number. *)
Theorem allocation_is_atomic_and_strictly_increasing :
  _generate_invoice_number
  = Do (invoicesequence_find_one_and_update "seq") (fun seq =>
      Do datetime_now (fun now =>
        Ret (invoice_format (year now)
               (default 1 (InvoiceSequence.last_number seq)))))
  ∧ (∀ E n d,
       run E _generate_invoice_number n (Some d)
       = (inr (invoice_format (year (clock_local (E (S n)))) (last_number_of d + 1)),
          Some (allocated d), S (S n))
       ∧ last_number_of (allocated d) = last_number_of d + 1)
  ∧ (∀ format_2f strftime_Ymd reqs sched d,
       let c := exec sched (start format_2f strftime_Ymd (Some d) reqs) in
       omap issued (log c)
       = seqZ (last_number_of d + 1) (counter (db c) - last_number_of d))
  ∧ (∀ format_2f strftime_Ymd reqs sched db0 i j ri rj,
       let c := exec sched (start format_2f strftime_Ymd db0 reqs) in
       i ≠ j →
       pool c !! i = Some (Ret (Paid ri)) →
       pool c !! j = Some (Ret (Paid rj)) →
       PaymentVerified.invoice_number ri ≠ PaymentVerified.invoice_number rj).
Proof.
  split; [reflexivity|]. split; [|split].
  - intros E n d. split; [apply run_generate_invoice_number | apply last_number_allocated].
  - intros f s reqs sched d c.
    destruct (exec_inv _ sched _ _ (start_inv f s (Some d) reqs)) as [ms H].
    apply (inv_log _ _ _ H).
  - intros f s reqs sched db0 i j ri rj c Hij Hi Hj.
    destruct (exec_inv _ sched _ _ (start_inv f s db0 reqs)) as [ms [Ht _ Hu _ _]].
    fold c in Ht.
    destruct (Forall2_lookup_r _ _ _ _ _ Ht Hi) as ([ni|] & Hmi & Hoki); [|destruct Hoki].
    destruct (Forall2_lookup_r _ _ _ _ _ Ht Hj) as ([nj|] & Hmj & Hokj); [|destruct Hokj].
    simpl in Hoki, Hokj. destruct Hoki as [yi ->], Hokj as [yj ->].
    intros Heq. apply FormatFacts.invoice_format_inj in Heq as [_ <-].
    apply Hij. eapply Hu; eauto.
Qed.

Lemma two_concurrent_verifications :
  let c := exec Fixture.alternate
             (start Fixture.format_2f Fixture.strftime_Ymd (Some Fixture.shop)
                [VerifyPayment Fixture.pay; VerifyPayment Fixture.pay]) in
  pool c !! 0%nat
  = Some (Ret (Paid {| PaymentVerified.status := "paid";
                       PaymentVerified.invoice_number := "TRI/2026/00001" |}))
  ∧ pool c !! 1%nat
    = Some (Ret (Paid {| PaymentVerified.status := "paid";
                         PaymentVerified.invoice_number := "TRI/2026/00002" |}))
  ∧ omap issued (log c) = [1; 2]
  ∧ "TRI/2026/00001" ≠ "TRI/2026/00002".
Proof.
  intros c.
  assert (H0 : pool c !! 0%nat
               = Some (Ret (Paid {| PaymentVerified.status := "paid";
                                    PaymentVerified.invoice_number := "TRI/2026/00001" |})))
    by (vm_compute; reflexivity).
  assert (H1 : pool c !! 1%nat
               = Some (Ret (Paid {| PaymentVerified.status := "paid";
                                    PaymentVerified.invoice_number := "TRI/2026/00002" |})))
    by (vm_compute; reflexivity).
  destruct allocation_is_atomic_and_strictly_increasing as (_ & _ & Hlog & Hdistinct).
  split; [exact H0|]. split; [exact H1|]. split.
  - unfold c. rewrite Hlog. vm_compute. reflexivity.
  - exact (Hdistinct Fixture.format_2f Fixture.strftime_Ymd _ _ _ 0%nat 1%nat _ _
             ltac:(discriminate) H0 H1).
Defined.

(** C2.  With a counter that is not negative, an allocation answers
    [TRI/{year}/{number:05d}]: the value after the increment in decimal,
    with zeros in front up to five characters.  Nothing is cut off (the
    suffix reads back as the number, and is as long as the digits when
    there are more than five); after 99999 the suffix is [100000]. *)
Theorem invoice_identifier_format E n d :
  0 <= last_number_of d →
  let num := last_number_of d + 1 in
  let digits := Py.str_int num in
  let suffix := Py.zeros (5 - String.length digits) +:+ digits in
  run E _generate_invoice_number n (Some d)
  = (inr ("TRI/" +:+ Py.str_int (year (clock_local (E (S n)))) +:+ "/" +:+ suffix),
     Some (allocated d), S (S n))
  ∧ String.length suffix = Nat.max 5 (String.length digits)
  ∧ Py.int_of_str suffix = Some num
  ∧ (last_number_of d = 99999 → suffix = "100000").
Proof.
  intros Hc num digits suffix.
  assert (Hs : Py.format_05d num = suffix).
  { apply PyFacts.format_05d_nonneg. unfold num. lia. }
  split; [|split; [|split]].
  - rewrite run_generate_invoice_number. unfold invoice_format. fold num. now rewrite Hs.
  - rewrite <- Hs. apply PyFacts.length_format_05d. unfold num. lia.
  - rewrite <- Hs. apply PyFacts.int_of_str_format_05d.
  - intros H. unfold suffix, digits, num. rewrite H. reflexivity.
Qed.

Lemma invoice_identifier_format_at_99999 :
  0 <= last_number_of (Fixture.counter_at 99999)
  ∧ (run Fixture.world _generate_invoice_number 0 (Some (Fixture.counter_at 99999))).1.1
    = inr "TRI/2026/100000".
Proof.
  assert (H : 0 <= last_number_of (Fixture.counter_at 99999)) by (vm_compute; discriminate).
  split; [exact H|].
  destruct (invoice_identifier_format Fixture.world 0 (Fixture.counter_at 99999) H)
    as (Hrun & _ & _ & Hsuffix).
  rewrite Hrun, Hsuffix by reflexivity. reflexivity.
Defined.

(** C3.  Without a counter record the first allocation creates it with
    [last_number = 1] and answers suffix [00001].  No other operation
    changes the [invoicesequence] collection, and among the requests
    only a payment verification that finds its order does, by exactly one
    allocation. *)
Theorem counter_created_by_first_allocation :
  (∀ E n d,
     invoicesequence d !! "seq" = None →
     run E _generate_invoice_number n (Some d)
     = (inr ("TRI/" +:+ Py.str_int (year (clock_local (E (S n)))) +:+ "/00001"),
        Some {| order := order d;
                invoicesequence :=
                  <["seq" := {| InvoiceSequence.last_number := Some 1 |}]>
                    (invoicesequence d) |},
        S (S n)))
  ∧ (∀ o e d r d',
       is_alloc o = false →
       exec_op o e (Some d) = (r, Some d') →
       invoicesequence d' = invoicesequence d)
  ∧ (∀ format_2f strftime_Ymd E n d req,
       ∃ d',
         (run E (handle format_2f strftime_Ymd req) n (Some d)).1.2 = Some d'
         ∧ (invoicesequence d' = invoicesequence d
            ∨ (∃ payload o,
                 req = VerifyPayment payload
                 ∧ Mongo.find_one (order_id payload) (order d) = Some o
                 ∧ invoicesequence d' = invoicesequence (allocated d)))).
Proof.
  split; [|split].
  - intros E n d H. rewrite run_generate_invoice_number.
    unfold allocated, last_number_of. rewrite H. reflexivity.
  - intros o e d r d' Ho Hx.
    destruct (exec_op_other o e (Some d) Ho d') as (d0 & [= <-] & Hseq); [|exact Hseq].
    now rewrite Hx.
  - intros f s E n d [p|p|email|oid]; unfold handle.
    + destruct (run_alloc_free E (Created <$> create_order p) n d) as (d' & Hr & Hs).
      { apply alloc_free_fmap, alloc_free_create_order. }
      eauto.
    + rewrite run_fmap.
      destruct (Mongo.find_one (order_id p) (order d)) as [o|] eqn:Hf.
      * rewrite (run_verify_payment_found E n d p o Hf). simpl. eauto 10.
      * rewrite (run_verify_payment_unknown E n d p Hf). simpl. eauto.
    + destruct (run_alloc_free E (Orders <$> list_orders email) n d) as (d' & Hr & Hs).
      { apply alloc_free_fmap, alloc_free_list_orders. }
      eauto.
    + destruct (run_alloc_free E (Html <$> get_invoice f s oid) n d) as (d' & Hr & Hs).
      { apply alloc_free_fmap, alloc_free_get_invoice. }
      eauto.
Qed.

Lemma first_allocation_on_empty_database :
  invoicesequence Fixture.empty_db !! "seq" = None
  ∧ run Fixture.world _generate_invoice_number 0 (Some Fixture.empty_db)
    = (inr "TRI/2026/00001",
       Some {| order := [];
               invoicesequence :=
                 {[ "seq" := {| InvoiceSequence.last_number := Some 1 |} ]} |},
       2%nat).
Proof.
  assert (H : invoicesequence Fixture.empty_db !! "seq" = None) by reflexivity.
  split; [exact H|].
  destruct counter_created_by_first_allocation as (Hfirst & _ & _).
  rewrite (Hfirst Fixture.world 0%nat Fixture.empty_db H). reflexivity.
Defined.

(** C4.  The year is a label only.  Two allocations in a row answer the
    counter plus 1 and plus 2 under the years their clock reads show,
    equal or not; what an allocation stores does not depend on the clock;
    and across a New Year, from 7, the answers are [TRI/2025/00008] and
    [TRI/2026/00009]. *)
Theorem counter_shared_across_years :
  (∀ E n d,
     run E (first ← _generate_invoice_number;
            second ← _generate_invoice_number;
            mret (first, second)) n (Some d)
     = (inr (invoice_format (year (clock_local (E (1 + n)%nat))) (last_number_of d + 1),
             invoice_format (year (clock_local (E (3 + n)%nat))) (last_number_of d + 2)),
        Some (allocated (allocated d)), (4 + n)%nat))
  ∧ (∀ E E' n n' db,
       (run E _generate_invoice_number n db).1.2
       = (run E' _generate_invoice_number n' db).1.2)
  ∧ (run Fixture.new_year
       (first ← _generate_invoice_number;
        second ← _generate_invoice_number;
        mret (first, second)) 0 (Some (Fixture.counter_at 7))).1.1
    = inr ("TRI/2025/00008", "TRI/2026/00009").
Proof.
  split; [|split].
  - intros E n d.
    rewrite run_bind, run_generate_invoice_number, run_bind, run_generate_invoice_number.
    rewrite last_number_allocated.
    replace (last_number_of d + 1 + 1) with (last_number_of d + 2) by lia.
    reflexivity.
  - intros E E' n n' [d|]; [now rewrite !run_generate_invoice_number | reflexivity].
  - vm_compute. reflexivity.
Qed.

(** C5.  When no order has the requested [order_id], payment
    verification raises 404 "Order not found" and leaves the database, the
    counter included, as it was. *)
Theorem verify_payment_unknown_order E n d payload :
  Mongo.find_one (order_id payload) (order d) = None →
  run E (verify_payment payload) n (Some d)
  = (inl (HTTPException 404 "Order not found"), Some d, S (S n))
  ∧ counter (run E (verify_payment payload) n (Some d)).1.2 = last_number_of d.
Proof.
  intros H. rewrite (run_verify_payment_unknown E n d payload H). now split.
Qed.

Lemma verify_payment_unknown_order_example :
  Mongo.find_one (order_id Fixture.pay_unknown) (order (Fixture.counter_at 41)) = None
  ∧ run Fixture.world (verify_payment Fixture.pay_unknown) 0 (Some (Fixture.counter_at 41))
    = (inl (HTTPException 404 "Order not found"), Some (Fixture.counter_at 41), 2%nat)
  ∧ counter (run Fixture.world (verify_payment Fixture.pay_unknown) 0
               (Some (Fixture.counter_at 41))).1.2 = 41.
Proof.
  assert (H : Mongo.find_one (order_id Fixture.pay_unknown)
                (order (Fixture.counter_at 41)) = None) by reflexivity.
  split; [exact H|].
  destruct (verify_payment_unknown_order Fixture.world 0 (Fixture.counter_at 41)
              Fixture.pay_unknown H) as [Hrun Hc].
  split; [exact Hrun|]. rewrite Hc. reflexivity.
Defined.

(** C6.  When the order exists, payment verification allocates the next
    number, stores the new invoice number and status "paid" on that order
    and answers [{status: "paid", invoice_number}].  Nothing guards a
    repetition: a second verification allocates again, answers a
    different invoice number and overwrites the stored one. *)
Theorem verify_payment_reissues_invoice E n d payload o :
  stored_ok d →
  Mongo.find_one (order_id payload) (order d) = Some o →
  let inv1 := invoice_format (year (clock_local (E (3 + n)%nat))) (last_number_of d + 1) in
  let inv2 := invoice_format (year (clock_local (E (9 + n)%nat))) (last_number_of d + 2) in
  (∃ d1 o1,
     run E (verify_payment payload) n (Some d)
     = (inr {| PaymentVerified.status := "paid";
               PaymentVerified.invoice_number := inv1 |}, Some d1, (6 + n)%nat)
     ∧ last_number_of d1 = last_number_of d + 1
     ∧ stored_ok d1
     ∧ Mongo.find_one (order_id payload) (order d1) = Some o1
     ∧ Order._id o1 = Order._id o
     ∧ Order.status o1 = Some "paid"
     ∧ Order.invoice_number o1 = Some inv1)
  ∧ (∃ d2 o2,
       run E (first ← verify_payment payload;
              second ← verify_payment payload;
              mret (first, second)) n (Some d)
       = (inr ({| PaymentVerified.status := "paid";
                  PaymentVerified.invoice_number := inv1 |},
               {| PaymentVerified.status := "paid";
                  PaymentVerified.invoice_number := inv2 |}),
          Some d2, (12 + n)%nat)
       ∧ inv2 ≠ inv1
       ∧ last_number_of d2 = last_number_of d + 2
       ∧ Mongo.find_one (order_id payload) (order d2) = Some o2
       ∧ Order._id o2 = Order._id o
       ∧ Order.status o2 = Some "paid"
       ∧ Order.invoice_number o2 = Some inv2).
Proof.
  intros Hok Hf inv1 inv2.
  pose proof (run_verify_payment_found E n d payload o Hf) as Hr1.
  pose proof (find_one_verified E n payload o d Hok Hf) as Hf1.
  pose proof (stored_ok_verified E n payload o d Hok) as Hok1.
  pose proof (last_number_verified E n payload o d) as Hl1.
  split.
  - eexists _, _. split; [exact Hr1|]. split; [exact Hl1|]. split; [exact Hok1|].
    split; [exact Hf1|]. repeat split.
  - set (d1 := verified E n payload o d) in *.
    set (o1 := Order.apply_set _ o) in Hf1.
    pose proof (run_verify_payment_found E (6 + n) d1 payload o1 Hf1) as Hr2.
    pose proof (find_one_verified E (6 + n) payload o1 d1 Hok1 Hf1) as Hf2.
    pose proof (last_number_verified E (6 + n) payload o1 d1) as Hl2.
    rewrite Hl1 in Hr2, Hf2.
    replace (last_number_of d + 1 + 1) with (last_number_of d + 2) in Hr2, Hf2 by lia.
    exists (verified E (6 + n) payload o1 d1). eexists.
    split.
    { rewrite run_bind, Hr1, run_bind, Hr2. reflexivity. }
    split.
    { intros Heq. apply FormatFacts.invoice_format_inj in Heq as [_ Heq]. lia. }
    split; [rewrite Hl2, Hl1; lia|].
    split; [exact Hf2|]. repeat split.
Qed.

Lemma verify_payment_twice_example :
  ∃ d2 o2,
    run Fixture.world
      (first ← verify_payment Fixture.pay;
       second ← verify_payment Fixture.pay;
       mret (first, second)) 0 (Some Fixture.shop)
    = (inr ({| PaymentVerified.status := "paid";
               PaymentVerified.invoice_number := "TRI/2026/00001" |},
            {| PaymentVerified.status := "paid";
               PaymentVerified.invoice_number := "TRI/2026/00002" |}),
       Some d2, 12%nat)
    ∧ Mongo.find_one "order_18293a43" (order d2) = Some o2
    ∧ Order.invoice_number o2 = Some "TRI/2026/00002".
Proof.
  destruct (verify_payment_reissues_invoice Fixture.world 0 Fixture.shop Fixture.pay
              Fixture.an_order stored_ok_shop eq_refl)
    as (_ & d2 & o2 & Hrun & _ & _ & Hfind & _ & _ & Hinv).
  exists d2, o2. split; [exact Hrun|]. split; [exact Hfind | exact Hinv].
Defined.

(** C7.  The order amount is the sum, in doubles, of [price * quantity]
    over the items in list order: [_order_total] computes it, a response
    of [create_order] carries it, and [create_order] does respond (and
    stores it) when the quantities fit BSON and the new ["_id"] is free.
    For the items [(10.5, 2)] and [(3, 1)] the amount is [24.0]. *)
Theorem order_amount_is_sum_of_products :
  (∀ l, _order_total l = float_sum <$> line_amounts l)
  ∧ (∀ E n db payload r db' n',
       run E (create_order payload) n db = (inr r, db', n') →
       ∃ amounts,
         line_amounts (items payload) = Some amounts
         ∧ OrderCreated.amount r = float_sum amounts)
  ∧ (∀ E n d payload,
       forallb (fun i => Mongo.int64 (quantity i)) (items payload) = true →
       existsb (Mongo.has_id (ObjectId (new_oid (E (3 + n)%nat)))) (order d) = false →
       ∃ amounts,
         line_amounts (items payload) = Some amounts
         ∧ run E (create_order payload) n (Some d)
           = (inr {| OrderCreated._id := new_oid (E (3 + n)%nat);
                     OrderCreated.order_id :=
                       gateway_order_id (ObjectId (new_oid (E (3 + n)%nat)));
                     OrderCreated.amount := float_sum amounts;
                     OrderCreated.currency := "INR";
                     OrderCreated.status := "created" |},
              Some {| order := order d ++ [stored_order E n payload (float_sum amounts)];
                      invoicesequence := invoicesequence d |},
              (5 + n)%nat))
  ∧ _order_total Fixture.cart = Some 24%float.
Proof.
  split; [exact order_total_spec|]. split; [|split].
  - intros E n db payload r db' n' Hrun.
    apply create_order_returns in Hrun. rewrite order_total_spec in Hrun.
    destruct (line_amounts (items payload)) as [amounts|]; [|discriminate].
    exists amounts. split; [reflexivity|]. now injection Hrun.
  - intros E n d payload Hq Hfresh.
    destruct (line_amounts_int64 _ Hq) as [amounts Ha].
    exists amounts. split; [exact Ha|].
    apply run_create_order; [|assumption..].
    now rewrite order_total_spec, Ha.
  - vm_compute. reflexivity.
Qed.

Lemma order_amount_of_example_cart :
  (run Fixture.world (create_order Fixture.order_in) 0 (Some Fixture.empty_db)).1.1
  = inr {| OrderCreated._id := "65a1b2c3d4e5f60718200003";
           OrderCreated.order_id := "order_18200003";
           OrderCreated.amount := 24%float;
           OrderCreated.currency := "INR";
           OrderCreated.status := "created" |}.
Proof.
  destruct order_amount_is_sum_of_products as (_ & _ & Hrun & _).
  destruct (Hrun Fixture.world 0%nat Fixture.empty_db Fixture.order_in)
    as (amounts & Ha & Hr); [reflexivity | reflexivity |].
  rewrite Hr. injection Ha as <-. reflexivity.
Defined.

(** C8.  Listing the orders of an email answers a list and never an
    error: at most 50 orders of that email, newest first, none of the
    left-out orders newer than a listed one, and the empty list when no
    order matches. *)
Theorem list_orders_newest_fifty E n d email :
  ∃ l,
    run E (list_orders email) n (Some d) = (inr l, Some d, (2 + n)%nat)
    ∧ (length l <= 50)%nat
    ∧ StronglySorted Mongo.newest_first l
    ∧ (∀ o : Order.doc, o ∈ l →
         Order.user_email o = Some email
         ∧ ∃ o', o' ∈ order d ∧ o = stringify_id o')
    ∧ (∃ rest,
         stringify_id <$> List.filter (Mongo.has_email email) (order d) ≡ₚ l ++ rest
         ∧ (∀ a b, a ∈ l → b ∈ rest → Mongo.newest_first a b)
         ∧ (rest ≠ [] → length l = 50%nat))
    ∧ ((∀ o : Order.doc, o ∈ order d → Order.user_email o ≠ Some email) → l = []).
Proof.
  exists (stringify_id <$> Mongo.find_sort_limit email 50 (order d)).
  destruct (SortFacts.find_sort_limit_spec email 50 (order d))
    as (Hlen & Hsorted & Hmem & rest & Hperm & Hnewer & Hfull).
  split; [reflexivity|].
  split; [now rewrite length_fmap|].
  split; [now apply (StronglySorted_fmap _ _ _ _ SortFacts.newest_first_stringify)|].
  split.
  { intros o Ho. apply list_elem_of_fmap in Ho as (o' & -> & Ho').
    destruct (Hmem o' Ho') as [Hin He]. split; [exact He | eauto]. }
  split.
  { exists (stringify_id <$> rest). split; [now rewrite Hperm, fmap_app|]. split.
    - intros a b Ha Hb.
      apply list_elem_of_fmap in Ha as (a' & -> & Ha').
      apply list_elem_of_fmap in Hb as (b' & -> & Hb').
      apply SortFacts.newest_first_stringify. eauto.
    - intros Hne. rewrite length_fmap. apply Hfull. intros ->. now apply Hne. }
  intros Hnone.
  destruct (Mongo.find_sort_limit email 50 (order d)) as [|o l] eqn:Hl; [reflexivity|].
  exfalso. destruct (Hmem o) as [Hin He]; [apply list_elem_of_here|].
  exact (Hnone o Hin He).
Qed.

(** C9.  The request model of [main.py] carries no constraint: a cart
    with quantity 0 and a negative price, which [schemas.CartItem]
    forbids, is accepted and stored with amount [-5.0]. *)
Theorem create_order_accepts_forbidden_items :
  forallb schemas.CartItem_constraints Fixture.bad_cart = false
  ∧ (run Fixture.world (create_order Fixture.bad_order_in) 0 (Some Fixture.empty_db)).1.1
    = inr {| OrderCreated._id := "65a1b2c3d4e5f60718200003";
             OrderCreated.order_id := "order_18200003";
             OrderCreated.amount := (-5)%float;
             OrderCreated.currency := "INR";
             OrderCreated.status := "created" |}.
Proof. split; vm_compute; reflexivity. Qed.

(** C10.  For a stored order without an invoice number the invoice
    page is answered, not an error, and shows [PENDING] in its title
    and in its header. *)
Theorem invoice_page_shows_pending format_2f strftime_Ymd E n d order_id o :
  stored_ok d →
  Mongo.find_one order_id (order d) = Some o →
  Order.invoice_number o = None →
  ∃ html before between after,
    run E (get_invoice format_2f strftime_Ymd order_id) n (Some d)
    = (inr html, Some d, (3 + n)%nat)
    ∧ html = before +:+ "<title>Invoice PENDING</title>"
             +:+ between +:+ "<div>PENDING</div>" +:+ after.
Proof.
  intros Hok Hfind Hinv.
  destruct (run_get_invoice format_2f strftime_Ymd E n d order_id o Hok Hfind)
    as (rows & _ & Hrun).
  rewrite Hinv in Hrun. simpl default in Hrun.
  destruct (invoice_html_pending
              (default "None" (Order.user_email o))
              (strftime_Ymd (clock_local (E (2 + n)%nat)))
              (Py.join rows)
              (format_2f (default 0%float (Order.amount o))))
    as (before & between & after & Hhtml).
  eexists _, before, between, after. split; [exact Hrun | exact Hhtml].
Qed.

Lemma invoice_page_of_unpaid_order :
  ∃ html before between after,
    run Fixture.world
      (get_invoice Fixture.format_2f Fixture.strftime_Ymd "order_18293a43") 0
      (Some Fixture.shop)
    = (inr html, Some Fixture.shop, 3%nat)
    ∧ html = before +:+ "<title>Invoice PENDING</title>"
             +:+ between +:+ "<div>PENDING</div>" +:+ after.
Proof.
  apply (invoice_page_shows_pending Fixture.format_2f Fixture.strftime_Ymd
           Fixture.world 0 Fixture.shop "order_18293a43" Fixture.an_order).
  - exact stored_ok_shop.
  - reflexivity.
  - reflexivity.
Defined.

(** * Further properties of the handlers *)

(** ** Strings *)

Module StringFacts.

Lemma append_cons x (a b : string) : String x a +:+ b = String x (a +:+ b).
Proof. reflexivity. Qed.

Lemma append_assoc (a b c : string) : (a +:+ b) +:+ c = a +:+ (b +:+ c).
Proof.
  induction a as [|x a IH]; [reflexivity|]. now rewrite !append_cons, IH.
Qed.

Lemma append_nil_r (a : string) : a +:+ EmptyString = a.
Proof.
  induction a as [|x a IH]; [reflexivity|]. now rewrite append_cons, IH.
Qed.

Lemma occurs_in_append_l needle a b : occurs_in needle a → occurs_in needle (a +:+ b).
Proof.
  intros (p & q & ->). exists p, (q +:+ b). now rewrite !append_assoc.
Qed.

Lemma occurs_in_append_r needle a b : occurs_in needle b → occurs_in needle (a +:+ b).
Proof.
  intros (p & q & ->). exists (a +:+ p), q. now rewrite !append_assoc.
Qed.

Lemma occurs_in_prefix needle rest : occurs_in needle (needle +:+ rest).
Proof. exists EmptyString, rest. reflexivity. Qed.

(** A value [x] filled in between a text that ends with [a] and a text that
    starts with [b] shows as [a x b]. *)
Lemma occurs_in_filled a x b p q left right rest :
  left = p +:+ a → right = b +:+ q →
  occurs_in (a +:+ x +:+ b) (left +:+ x +:+ right +:+ rest).
Proof.
  intros -> ->. exists p, (q +:+ rest). now rewrite !append_assoc.
Qed.

Lemma occurs_in_join needle r rows :
  r ∈ rows → occurs_in needle r → occurs_in needle (Py.join rows).
Proof.
  intros Hin Hr. induction Hin as [r rows|r r' rows Hin IH]; simpl.
  - now apply occurs_in_append_l.
  - now apply occurs_in_append_r, IH.
Qed.

End StringFacts.

(** The invoice page is its fixed text with the seven values filled in. *)
Lemma invoice_html_template inv billed_to date items_html total :
  invoice_html inv billed_to date items_html total
  = Page.to_title +:+ inv +:+ Page.title_to_header +:+ inv
    +:+ Page.header_to_billed +:+ billed_to
    +:+ Page.billed_to_date +:+ date
    +:+ Page.date_to_rows +:+ items_html
    +:+ Page.rows_to_total +:+ total +:+ Page.after_total.
Proof.
  unfold invoice_html, Page.to_title, Page.title_to_header, Page.header_to_billed,
    Page.billed_to_date, Page.date_to_rows, Page.rows_to_total, Page.after_total,
    class_attr, Py.join.
  cbn [map fold_right].
  rewrite !StringFacts.append_assoc. cbv [String.append]. reflexivity.
Qed.

(** ** Errors and read-only handlers *)

(** X1.  With [db = None] each of the four handlers raises 500
    "Database not configured" after the check alone: no collection is
    accessed and the clock is not read. *)
Theorem unconfigured_database_raises_500 format_2f strftime_Ymd E n req :
  run E (handle format_2f strftime_Ymd req) n None
  = (inl (HTTPException 500 "Database not configured"), None, S n).
Proof. destruct req; reflexivity. Qed.

(** X2.  [list_orders] and [get_invoice] only read: whatever they answer
    or raise, the database is afterwards what it was before. *)
Theorem reading_handlers_write_nothing format_2f strftime_Ymd E n db :
  (∀ email, (run E (list_orders email) n db).1.2 = db)
  ∧ (∀ order_id, (run E (get_invoice format_2f strftime_Ymd order_id) n db).1.2 = db).
Proof.
  split.
  - intros email. unfold list_orders. cbn. destruct db as [d|]; reflexivity.
  - intros oid. unfold get_invoice. cbn. destruct db as [d|]; cbn; [|reflexivity].
    destruct (Mongo.find_one oid (order d)) as [o|]; cbn; [|reflexivity].
    destruct (item_rows format_2f (default [] (Order.items o))); reflexivity.
Qed.

(** X3.  [get_invoice] for an [order_id] that no order has raises 404
    "Order not found" before anything is rendered or the clock is read. *)
Theorem get_invoice_unknown_order format_2f strftime_Ymd E n d order_id :
  Mongo.find_one order_id (order d) = None →
  run E (get_invoice format_2f strftime_Ymd order_id) n (Some d)
  = (inl (HTTPException 404 "Order not found"), Some d, (2 + n)%nat).
Proof. intros H. unfold get_invoice. cbn. now rewrite H. Qed.

Lemma get_invoice_unknown_order_example :
  Mongo.find_one "order_00000000" (order Fixture.shop) = None
  ∧ run Fixture.world
      (get_invoice Fixture.format_2f Fixture.strftime_Ymd "order_00000000") 0
      (Some Fixture.shop)
    = (inl (HTTPException 404 "Order not found"), Some Fixture.shop, 2%nat).
Proof.
  assert (H : Mongo.find_one "order_00000000" (order Fixture.shop) = None) by reflexivity.
  split; [exact H|].
  exact (get_invoice_unknown_order Fixture.format_2f Fixture.strftime_Ymd
           Fixture.world 0 Fixture.shop "order_00000000" H).
Defined.

(** ** The invoice page *)

Lemma item_rows_lookup format_2f l rows (i : CartItem) :
  item_rows format_2f l = Some rows → i ∈ l →
  ∃ r, r ∈ rows ∧ item_row format_2f i = Some r.
Proof.
  revert rows. induction l as [|j l IH]; intros rows Hrows Hin.
  - now apply elem_of_nil in Hin.
  - simpl in Hrows.
    destruct (item_row format_2f j) as [rj|] eqn:Hj; [|discriminate].
    destruct (item_rows format_2f l) as [rs|]; [|discriminate].
    injection Hrows as <-.
    apply elem_of_cons in Hin as [->|Hin].
    + exists rj. split; [apply list_elem_of_here | exact Hj].
    + destruct (IH rs eq_refl Hin) as (r & Hr & Hi).
      exists r. split; [now apply list_elem_of_further | exact Hi].
Qed.

Lemma item_rows_length format_2f l rows :
  item_rows format_2f l = Some rows → length rows = length l.
Proof.
  revert rows. induction l as [|j l IH]; intros rows; simpl.
  - now intros [= <-].
  - destruct (item_row format_2f j); [|discriminate].
    destruct (item_rows format_2f l) as [rs|]; [|discriminate].
    intros [= <-]. simpl. now rewrite (IH rs).
Qed.

(** X4.  The invoice page of a stored order has one table row per item:
    for every item of the order, a row that starts with its title and its
    quantity occurs in the page, and the page names the order's email
    after "Billed To:". *)
Theorem invoice_page_lists_every_item
    format_2f strftime_Ymd E n d order_id (o : Order.doc) l email :
  stored_ok d →
  Mongo.find_one order_id (order d) = Some o →
  Order.items o = Some l →
  Order.user_email o = Some email →
  ∃ html rows,
    run E (get_invoice format_2f strftime_Ymd order_id) n (Some d)
    = (inr html, Some d, (3 + n)%nat)
    ∧ item_rows format_2f l = Some rows
    ∧ length rows = length l
    ∧ occurs_in ("<strong>Billed To:</strong> " +:+ email +:+ "</div>") html
    ∧ ∀ i : CartItem, i ∈ l →
        occurs_in ("<tr><td>" +:+ title i
                   +:+ "</td><td style='text-align:center'>"
                   +:+ Py.str_int (quantity i) +:+ "</td>") html.
Proof.
  intros Hok Hfind Hitems Hemail.
  destruct (run_get_invoice format_2f strftime_Ymd E n d order_id o Hok Hfind)
    as (rows & Hrows & Hrun).
  rewrite Hitems in Hrows. simpl in Hrows.
  rewrite Hemail in Hrun. simpl default in Hrun.
  eexists _, rows. split; [exact Hrun|]. split; [exact Hrows|].
  split; [now apply item_rows_length in Hrows|].
  rewrite invoice_html_template. split.
  - do 4 apply StringFacts.occurs_in_append_r.
    exists ("</div>" +:+ Py.newline +:+
            Py.join (map (fun l => l +:+ Py.newline)
              ["          </div>";
               "          <div " +:+ class_attr "section" +:+ ">"])
            +:+ "            <div>").
    eexists. unfold Page.header_to_billed, Page.billed_to_date.
    rewrite !StringFacts.append_assoc. cbv [String.append Py.join map fold_right].
    reflexivity.
  - intros i Hi.
    destruct (item_rows_lookup format_2f l rows i Hrows Hi) as (r & Hr & Hrow).
    do 9 apply StringFacts.occurs_in_append_r.
    apply StringFacts.occurs_in_append_l.
    apply (StringFacts.occurs_in_join _ r rows Hr).
    unfold item_row in Hrow.
    destruct (Py.float_mul_int (price i) (quantity i)) as [line|]; [|discriminate].
    injection Hrow as <-.
    exists EmptyString. eexists.
    rewrite !StringFacts.append_assoc. reflexivity.
Qed.

Lemma invoice_page_lists_example_cart :
  ∃ html rows,
    run Fixture.world
      (get_invoice Fixture.format_2f Fixture.strftime_Ymd "order_18293a43") 0
      (Some Fixture.shop)
    = (inr html, Some Fixture.shop, 3%nat)
    ∧ item_rows Fixture.format_2f Fixture.cart = Some rows
    ∧ length rows = 2%nat
    ∧ occurs_in "<strong>Billed To:</strong> a@b.c</div>" html
    ∧ ∀ i : CartItem, i ∈ Fixture.cart →
        occurs_in ("<tr><td>" +:+ title i
                   +:+ "</td><td style='text-align:center'>"
                   +:+ Py.str_int (quantity i) +:+ "</td>") html.
Proof.
  exact (invoice_page_lists_every_item Fixture.format_2f Fixture.strftime_Ymd
           Fixture.world 0 Fixture.shop "order_18293a43" Fixture.an_order
           Fixture.cart "a@b.c" stored_ok_shop eq_refl eq_refl eq_refl).
Defined.

(** X5.  After a payment verification that found its order, the invoice
    page of that [order_id] shows the invoice number the verification
    answered, in the title and in the header. *)
Theorem invoice_page_shows_verified_number
    format_2f strftime_Ymd E n d payload (o : Order.doc) :
  stored_ok d →
  Mongo.find_one (order_id payload) (order d) = Some o →
  ∃ r d1 html,
    run E (verify_payment payload) n (Some d) = (inr r, Some d1, (6 + n)%nat)
    ∧ run E (get_invoice format_2f strftime_Ymd (order_id payload)) (6 + n) (Some d1)
      = (inr html, Some d1, (9 + n)%nat)
    ∧ occurs_in ("<title>Invoice " +:+ PaymentVerified.invoice_number r +:+ "</title>") html
    ∧ occurs_in ("<div>" +:+ PaymentVerified.invoice_number r +:+ "</div>") html.
Proof.
  intros Hok Hfind.
  pose proof (run_verify_payment_found E n d payload o Hfind) as Hrun.
  pose proof (find_one_verified E n payload o d Hok Hfind) as Hfind1.
  pose proof (stored_ok_verified E n payload o d Hok) as Hok1.
  destruct (run_get_invoice format_2f strftime_Ymd E (6 + n) _ _ _ Hok1 Hfind1)
    as (rows & _ & Hpage).
  eexists _, _, _. split; [exact Hrun|]. split; [exact Hpage|].
  cbn [PaymentVerified.invoice_number Order.invoice_number Order.apply_set Order.body
       Order.overwrite paid_set Order.set_invoice_number default from_option].
  rewrite invoice_html_template. split.
  - apply (StringFacts.occurs_in_filled _ _ _
             (substring 0 (String.length Page.to_title - 15) Page.to_title)
             (substring 8 (String.length Page.title_to_header - 8)
                Page.title_to_header));
      vm_compute; reflexivity.
  - do 2 apply StringFacts.occurs_in_append_r.
    apply (StringFacts.occurs_in_filled _ _ _
             (substring 0 (String.length Page.title_to_header - 5)
                Page.title_to_header)
             (substring 6 (String.length Page.header_to_billed - 6)
                Page.header_to_billed));
      vm_compute; reflexivity.
Qed.

Lemma invoice_page_after_example_verification :
  ∃ r d1 html,
    run Fixture.world (verify_payment Fixture.pay) 0 (Some Fixture.shop)
    = (inr r, Some d1, 6%nat)
    ∧ run Fixture.world
        (get_invoice Fixture.format_2f Fixture.strftime_Ymd (order_id Fixture.pay)) 6
        (Some d1)
      = (inr html, Some d1, 9%nat)
    ∧ occurs_in ("<title>Invoice " +:+ PaymentVerified.invoice_number r +:+ "</title>") html
    ∧ occurs_in ("<div>" +:+ PaymentVerified.invoice_number r +:+ "</div>") html.
Proof.
  exact (invoice_page_shows_verified_number Fixture.format_2f Fixture.strftime_Ymd
           Fixture.world 0 Fixture.shop Fixture.pay Fixture.an_order
           stored_ok_shop eq_refl).
Defined.

(** X6.  For an order that lacks the keys [invoice_number], [user_email],
    [items] and [amount], [get_invoice] still answers: the page shows
    [PENDING], [None] as the email, no table row and the total of 0. *)
Theorem invoice_page_of_bare_order format_2f strftime_Ymd E n d order_id (o : Order.doc) :
  Mongo.find_one order_id (order d) = Some o →
  Order.invoice_number o = None →
  Order.user_email o = None →
  Order.items o = None →
  Order.amount o = None →
  run E (get_invoice format_2f strftime_Ymd order_id) n (Some d)
  = (inr (Page.to_title +:+ "PENDING" +:+ Page.title_to_header +:+ "PENDING"
          +:+ Page.header_to_billed +:+ "None"
          +:+ Page.billed_to_date +:+ strftime_Ymd (clock_local (E (2 + n)%nat))
          +:+ Page.date_to_rows +:+ EmptyString
          +:+ Page.rows_to_total +:+ format_2f 0%float +:+ Page.after_total),
     Some d, (3 + n)%nat).
Proof.
  intros Hfind Hinv Hemail Hitems Hamount.
  unfold get_invoice. cbn. rewrite Hfind. cbn.
  rewrite Hinv, Hemail, Hitems, Hamount. cbn.
  now rewrite invoice_html_template.
Qed.

(** ** Slices *)

Module SliceFacts.

Lemma substring_all m s : (String.length s <= m)%nat → substring 0 m s = s.
Proof.
  revert m. induction s as [|c s IH]; intros [|m] H; simpl in *; try reflexivity; try lia.
  rewrite IH by lia. reflexivity.
Qed.

Lemma substring_tail n m s :
  (n <= String.length s)%nat → (String.length s <= n + m)%nat →
  ∃ pre, s = pre +:+ substring n m s
         ∧ String.length pre = n
         ∧ String.length (substring n m s) = (String.length s - n)%nat.
Proof.
  revert n. induction s as [|c s IH]; intros n Hn Hm.
  - simpl in Hn. assert (n = 0%nat) as -> by lia.
    exists EmptyString. now destruct m.
  - destruct n as [|n].
    + exists EmptyString. rewrite substring_all by (simpl in *; lia).
      split; [reflexivity|]. split; [reflexivity|]. simpl. lia.
    + destruct (IH n) as (pre & Hs & Hlen & Hsub); [simpl in *; lia ..|].
      exists (String c pre). simpl. rewrite StringFacts.append_cons.
      split; [now rewrite <- Hs|].
      split; [now rewrite Hlen | exact Hsub].
Qed.

(** [s[-k:]] is the end of [s], [k] characters long, or all of [s] when
    [s] is shorter. *)
Lemma last_chars_suffix k s :
  ∃ pre, s = pre +:+ Py.last_chars k s
         ∧ String.length (Py.last_chars k s) = Nat.min k (String.length s).
Proof.
  unfold Py.last_chars.
  destruct (substring_tail (String.length s - k) k s) as (pre & Hs & _ & Hlen); [lia ..|].
  exists pre. split; [exact Hs|]. rewrite Hlen. lia.
Qed.

End SliceFacts.

(** ** Orders: placing, finding, paying *)

Module OrderFacts.

Lemma find_app_last (f : Order.doc → bool) c x :
  List.find f (c ++ [x])
  = match List.find f c with
    | Some y => Some y
    | None => if f x then Some x else None
    end.
Proof.
  induction c as [|h c IH]; simpl; [reflexivity|].
  destruct (f h); [reflexivity | exact IH].
Qed.

Lemma update_one_keeps_last i u c x :
  i ∈ map Order._id c →
  Mongo.update_one i u (c ++ [x]) = Mongo.update_one i u c ++ [x].
Proof.
  induction c as [|h c IH]; simpl; intros Hin.
  - now apply elem_of_nil in Hin.
  - destruct (Mongo.has_id i h) eqn:Hh; [reflexivity|].
    unfold Mongo.has_id in Hh. apply bool_decide_eq_false in Hh.
    apply elem_of_cons in Hin as [Hin|Hin]; [congruence|].
    simpl. now rewrite IH.
Qed.

Lemma update_one_others i u c (o : Order.doc) :
  o ∈ c → Order._id o ≠ i → o ∈ Mongo.update_one i u c.
Proof.
  intros Hin Hne. induction c as [|h c IH]; simpl; [exact Hin|].
  apply elem_of_cons in Hin as [->|Hin].
  - unfold Mongo.has_id. rewrite bool_decide_eq_false_2 by assumption.
    apply list_elem_of_here.
  - destruct (Mongo.has_id i h); apply list_elem_of_further; auto.
Qed.

Lemma update_one_length i u c : length (Mongo.update_one i u c) = length c.
Proof.
  induction c as [|h c IH]; simpl; [reflexivity|].
  destruct (Mongo.has_id i h); simpl; [reflexivity | now rewrite IH].
Qed.

Lemma find_one_has_order_id oid c (o : Order.doc) :
  Mongo.find_one oid c = Some o → o ∈ c ∧ Order.order_id o = Some oid.
Proof.
  intros H. apply find_some in H as [Hin Hid]. split; [now apply list_elem_of_In|].
  unfold Mongo.has_order_id in Hid. now apply bool_decide_eq_true in Hid.
Qed.

End OrderFacts.

(** The order [find_one] returns for the gateway id of a freshly placed
    order: an older order with that [order_id] when there is one, else
    the new order. *)
Lemma find_one_after_create E n d payload amount :
  let gid := gateway_order_id (ObjectId (new_oid (E (3 + n)%nat))) in
  Mongo.find_one gid (order d ++ [stored_order E n payload amount])
  = Some (default (stored_order E n payload amount) (Mongo.find_one gid (order d))).
Proof.
  intros gid. unfold Mongo.find_one. rewrite OrderFacts.find_app_last.
  destruct (List.find (Mongo.has_order_id gid) (order d)); [reflexivity|].
  unfold Mongo.has_order_id. simpl. now rewrite bool_decide_eq_true_2.
Qed.

(** X7.  Placing an order and then verifying payment for the [order_id]
    that [create_order] answered: when no older order has that
    [order_id], the verification finds the new order, answers the next
    invoice number and leaves the order paid with that number. *)
Theorem placed_order_can_be_paid E n d payload pid sig :
  forallb (fun i => Mongo.int64 (quantity i)) (items payload) = true →
  existsb (Mongo.has_id (ObjectId (new_oid (E (3 + n)%nat)))) (order d) = false →
  stored_ok d →
  Mongo.find_one (gateway_order_id (ObjectId (new_oid (E (3 + n)%nat)))) (order d) = None →
  ∃ r d1 d2 (o2 : Order.doc),
    run E (create_order payload) n (Some d) = (inr r, Some d1, (5 + n)%nat)
    ∧ run E (verify_payment {| order_id := OrderCreated.order_id r;
                               payment_id := pid; signature := sig |})
        (5 + n) (Some d1)
      = (inr {| PaymentVerified.status := "paid";
                PaymentVerified.invoice_number :=
                  invoice_format (year (clock_local (E (8 + n)%nat)))
                    (last_number_of d + 1) |},
         Some d2, (11 + n)%nat)
    ∧ Mongo.find_one (OrderCreated.order_id r) (order d2) = Some o2
    ∧ str_id (Order._id o2) = OrderCreated._id r
    ∧ Order.user_email o2 = Some (user_email payload)
    ∧ Order.items o2 = Some (items payload)
    ∧ Order.amount o2 = Some (OrderCreated.amount r)
    ∧ Order.status o2 = Some "paid"
    ∧ Order.invoice_number o2
      = Some (invoice_format (year (clock_local (E (8 + n)%nat))) (last_number_of d + 1)).
Proof.
  intros Hq Hfresh Hok Hnone.
  destruct (line_amounts_int64 _ Hq) as [amounts Ha].
  assert (Ht : _order_total (items payload) = Some (float_sum amounts))
    by now rewrite order_total_spec, Ha.
  pose proof (run_create_order E n d payload _ Ht Hq Hfresh) as Hcreate.
  set (new := stored_order E n payload (float_sum amounts)) in *.
  set (d1 := {| order := order d ++ [new]; invoicesequence := invoicesequence d |}) in *.
  set (gid := gateway_order_id (ObjectId (new_oid (E (3 + n)%nat)))) in *.
  assert (Hok1 : stored_ok d1).
  { destruct Hok as [Hn Hf]. split; simpl.
    - rewrite map_app. apply NoDup_app. split; [exact Hn|]. split.
      + intros x Hx Hx'. apply list_elem_of_singleton in Hx' as ->.
        now apply MongoFacts.existsb_has_id in Hfresh.
      + apply NoDup_singleton.
    - apply Forall_app. split; [exact Hf|]. constructor; [exact Hq | constructor]. }
  assert (Hfind1 : Mongo.find_one gid (order d1) = Some new).
  { unfold d1, new, gid. simpl order. rewrite find_one_after_create.
    fold gid. now rewrite Hnone. }
  set (p := {| order_id := gid; payment_id := pid; signature := sig |}).
  pose proof (run_verify_payment_found E (5 + n) d1 p new Hfind1) as Hverify.
  pose proof (find_one_verified E (5 + n) p new d1 Hok1 Hfind1) as Hfind2.
  eexists _, d1, _, _. split; [exact Hcreate|]. split; [exact Hverify|].
  split; [exact Hfind2|]. repeat split.
Qed.

Lemma invoice_page_of_bare_order_example :
  run Fixture.world
    (get_invoice Fixture.format_2f Fixture.strftime_Ymd "order_000000aa") 0
    (Some Sample.bare_shop)
  = (inr (Page.to_title +:+ "PENDING" +:+ Page.title_to_header +:+ "PENDING"
          +:+ Page.header_to_billed +:+ "None"
          +:+ Page.billed_to_date +:+ "2026-01-01"
          +:+ Page.date_to_rows +:+ EmptyString
          +:+ Page.rows_to_total +:+ "0.00" +:+ Page.after_total),
     Some Sample.bare_shop, 3%nat).
Proof.
  exact (invoice_page_of_bare_order Fixture.format_2f Fixture.strftime_Ymd
           Fixture.world 0 Sample.bare_shop "order_000000aa" Sample.bare_order
           eq_refl eq_refl eq_refl eq_refl eq_refl).
Defined.

Lemma placed_order_can_be_paid_example :
  ∃ r d1 d2 (o2 : Order.doc),
    run Fixture.world (create_order Fixture.order_in) 0 (Some Fixture.empty_db)
    = (inr r, Some d1, 5%nat)
    ∧ run Fixture.world
        (verify_payment {| order_id := OrderCreated.order_id r;
                           payment_id := None; signature := None |}) 5 (Some d1)
      = (inr {| PaymentVerified.status := "paid";
                PaymentVerified.invoice_number := "TRI/2026/00001" |},
         Some d2, 11%nat)
    ∧ Mongo.find_one (OrderCreated.order_id r) (order d2) = Some o2
    ∧ str_id (Order._id o2) = OrderCreated._id r
    ∧ Order.user_email o2 = Some "a@b.c"
    ∧ Order.items o2 = Some Fixture.cart
    ∧ Order.amount o2 = Some (OrderCreated.amount r)
    ∧ Order.status o2 = Some "paid"
    ∧ Order.invoice_number o2 = Some "TRI/2026/00001".
Proof.
  exact (placed_order_can_be_paid Fixture.world 0 Fixture.empty_db Fixture.order_in
           None None eq_refl eq_refl stored_ok_empty eq_refl).
Defined.

(** X8.  [order_id] is no key: when an older order already has the
    [order_id] that [create_order] answers (its ["_id"] ends in the same
    eight characters), a verification for that [order_id] marks the older
    order paid, and the new order stays "created" without an invoice
    number. *)
Theorem older_order_with_same_order_id_is_paid E n d payload pid sig (old : Order.doc) :
  forallb (fun i => Mongo.int64 (quantity i)) (items payload) = true →
  existsb (Mongo.has_id (ObjectId (new_oid (E (3 + n)%nat)))) (order d) = false →
  stored_ok d →
  Mongo.find_one (gateway_order_id (ObjectId (new_oid (E (3 + n)%nat)))) (order d)
  = Some old →
  ∃ r d1 d2 (paid new : Order.doc),
    run E (create_order payload) n (Some d) = (inr r, Some d1, (5 + n)%nat)
    ∧ run E (verify_payment {| order_id := OrderCreated.order_id r;
                               payment_id := pid; signature := sig |})
        (5 + n) (Some d1)
      = (inr {| PaymentVerified.status := "paid";
                PaymentVerified.invoice_number :=
                  invoice_format (year (clock_local (E (8 + n)%nat)))
                    (last_number_of d + 1) |},
         Some d2, (11 + n)%nat)
    ∧ Mongo.find_one (OrderCreated.order_id r) (order d2) = Some paid
    ∧ Order._id paid = Order._id old
    ∧ Order._id paid ≠ ObjectId (OrderCreated._id r)
    ∧ Order.status paid = Some "paid"
    ∧ last (order d2) = Some new
    ∧ Order._id new = ObjectId (OrderCreated._id r)
    ∧ Order.status new = Some "created"
    ∧ Order.invoice_number new = None.
Proof.
  intros Hq Hfresh Hok Hold.
  destruct (line_amounts_int64 _ Hq) as [amounts Ha].
  assert (Ht : _order_total (items payload) = Some (float_sum amounts))
    by now rewrite order_total_spec, Ha.
  pose proof (run_create_order E n d payload _ Ht Hq Hfresh) as Hcreate.
  set (new := stored_order E n payload (float_sum amounts)) in *.
  set (d1 := {| order := order d ++ [new]; invoicesequence := invoicesequence d |}) in *.
  set (gid := gateway_order_id (ObjectId (new_oid (E (3 + n)%nat)))) in *.
  destruct (OrderFacts.find_one_has_order_id _ _ _ Hold) as [Hin _].
  assert (Hid : Order._id old ∈ map Order._id (order d))
    by now apply list_elem_of_fmap_2.
  assert (Hne : Order._id old ≠ ObjectId (new_oid (E (3 + n)%nat))).
  { intros Heq. apply MongoFacts.existsb_has_id in Hfresh. apply Hfresh.
    now rewrite <- Heq. }
  assert (Hok1 : stored_ok d1).
  { destruct Hok as [Hn Hf]. split; simpl.
    - rewrite map_app. apply NoDup_app. split; [exact Hn|]. split.
      + intros x Hx Hx'. apply list_elem_of_singleton in Hx' as ->.
        now apply MongoFacts.existsb_has_id in Hfresh.
      + apply NoDup_singleton.
    - apply Forall_app. split; [exact Hf|]. constructor; [exact Hq | constructor]. }
  assert (Hfind1 : Mongo.find_one gid (order d1) = Some old).
  { unfold d1, new, gid. simpl order. rewrite find_one_after_create.
    fold gid. now rewrite Hold. }
  set (p := {| order_id := gid; payment_id := pid; signature := sig |}).
  pose proof (run_verify_payment_found E (5 + n) d1 p old Hfind1) as Hverify.
  pose proof (find_one_verified E (5 + n) p old d1 Hok1 Hfind1) as Hfind2.
  eexists _, d1, _, _, new. split; [exact Hcreate|]. split; [exact Hverify|].
  split; [exact Hfind2|].
  split; [reflexivity|]. split; [exact Hne|]. split; [reflexivity|].
  split; [|repeat split].
  simpl order. rewrite OrderFacts.update_one_keeps_last by exact Hid.
  apply last_snoc.
Qed.

Lemma older_order_with_same_order_id_example :
  ∃ r d1 d2 (paid new : Order.doc),
    run Fixture.world (create_order Fixture.order_in) 0 (Some Sample.twin_shop)
    = (inr r, Some d1, 5%nat)
    ∧ run Fixture.world
        (verify_payment {| order_id := OrderCreated.order_id r;
                           payment_id := None; signature := None |}) 5 (Some d1)
      = (inr {| PaymentVerified.status := "paid";
                PaymentVerified.invoice_number := "TRI/2026/00001" |},
         Some d2, 11%nat)
    ∧ Mongo.find_one (OrderCreated.order_id r) (order d2) = Some paid
    ∧ Order._id paid = Order._id Sample.twin
    ∧ Order._id paid ≠ ObjectId (OrderCreated._id r)
    ∧ Order.status paid = Some "paid"
    ∧ last (order d2) = Some new
    ∧ Order._id new = ObjectId (OrderCreated._id r)
    ∧ Order.status new = Some "created"
    ∧ Order.invoice_number new = None.
Proof.
  assert (Hok : stored_ok Sample.twin_shop).
  { split; simpl; [apply NoDup_singleton | repeat constructor]. }
  exact (older_order_with_same_order_id_is_paid Fixture.world 0 Sample.twin_shop
           Fixture.order_in None None Sample.twin eq_refl eq_refl Hok eq_refl).
Defined.

(** X9.  A placed order shows up in the listing of its email: when that
    email had fewer than 50 orders, [list_orders] after [create_order]
    contains the new order, with the ["_id"] and [order_id] that
    [create_order] answered, status "created" and the same amount. *)
Theorem placed_order_is_listed E n d payload :
  forallb (fun i => Mongo.int64 (quantity i)) (items payload) = true →
  existsb (Mongo.has_id (ObjectId (new_oid (E (3 + n)%nat)))) (order d) = false →
  (length (List.filter (Mongo.has_email (user_email payload)) (order d)) < 50)%nat →
  ∃ r d1 l (o : Order.doc),
    run E (create_order payload) n (Some d) = (inr r, Some d1, (5 + n)%nat)
    ∧ run E (list_orders (user_email payload)) (5 + n) (Some d1)
      = (inr l, Some d1, (7 + n)%nat)
    ∧ o ∈ l
    ∧ Order._id o = IdStr (OrderCreated._id r)
    ∧ Order.order_id o = Some (OrderCreated.order_id r)
    ∧ Order.status o = Some "created"
    ∧ Order.amount o = Some (OrderCreated.amount r)
    ∧ Order.invoice_number o = None.
Proof.
  intros Hq Hfresh Hfew.
  destruct (line_amounts_int64 _ Hq) as [amounts Ha].
  assert (Ht : _order_total (items payload) = Some (float_sum amounts))
    by now rewrite order_total_spec, Ha.
  pose proof (run_create_order E n d payload _ Ht Hq Hfresh) as Hcreate.
  set (new := stored_order E n payload (float_sum amounts)) in *.
  set (email := user_email payload) in *.
  destruct (SortFacts.find_sort_limit_spec email 50 (order d ++ [new]))
    as (_ & _ & _ & rest & Hperm & _ & Hfull).
  assert (Hfilter : List.filter (Mongo.has_email email) (order d ++ [new])
                    = List.filter (Mongo.has_email email) (order d) ++ [new]).
  { rewrite List.filter_app. simpl. unfold Mongo.has_email at 2. simpl.
    now rewrite bool_decide_eq_true_2. }
  rewrite Hfilter in Hperm.
  assert (Hrest : rest = []).
  { destruct rest as [|x rest]; [reflexivity|]. exfalso.
    specialize (Hfull ltac:(discriminate)).
    apply Permutation_length in Hperm.
    rewrite !length_app in Hperm. simpl in Hperm. lia. }
  subst rest. rewrite app_nil_r in Hperm.
  assert (Hin : new ∈ Mongo.find_sort_limit email 50 (order d ++ [new])).
  { rewrite <- Hperm. apply elem_of_app. right. apply list_elem_of_here. }
  eexists _, _, _, (stringify_id new). split; [exact Hcreate|].
  split; [reflexivity|].
  split; [now apply list_elem_of_fmap_2|]. repeat split.
Qed.

Lemma placed_order_is_listed_example :
  ∃ r d1 l (o : Order.doc),
    run Fixture.world (create_order Fixture.order_in) 0 (Some Fixture.shop)
    = (inr r, Some d1, 5%nat)
    ∧ run Fixture.world (list_orders "a@b.c") 5 (Some d1) = (inr l, Some d1, 7%nat)
    ∧ o ∈ l
    ∧ Order._id o = IdStr (OrderCreated._id r)
    ∧ Order.order_id o = Some (OrderCreated.order_id r)
    ∧ Order.status o = Some "created"
    ∧ Order.amount o = Some (OrderCreated.amount r)
    ∧ Order.invoice_number o = None.
Proof.
  exact (placed_order_is_listed Fixture.world 0 Fixture.shop Fixture.order_in
           eq_refl eq_refl ltac:(vm_compute; lia)).
Defined.

(** X10.  A payment verification changes one document only: the
    collection keeps its length and its ["_id"]s in order, every order
    with another ["_id"] is still stored as it was, and the paid order
    keeps its email, items, amount, creation date and [order_id]. *)
Theorem verify_payment_changes_one_order E n d payload (o : Order.doc) :
  stored_ok d →
  Mongo.find_one (order_id payload) (order d) = Some o →
  ∃ r d1 (o1 : Order.doc),
    run E (verify_payment payload) n (Some d) = (inr r, Some d1, (6 + n)%nat)
    ∧ length (order d1) = length (order d)
    ∧ map Order._id (order d1) = map Order._id (order d)
    ∧ (∀ o' : Order.doc, o' ∈ order d → Order._id o' ≠ Order._id o → o' ∈ order d1)
    ∧ Mongo.find_one (order_id payload) (order d1) = Some o1
    ∧ Order._id o1 = Order._id o
    ∧ Order.user_email o1 = Order.user_email o
    ∧ Order.items o1 = Order.items o
    ∧ Order.amount o1 = Order.amount o
    ∧ Order.created_at o1 = Order.created_at o
    ∧ Order.order_id o1 = Order.order_id o.
Proof.
  intros Hok Hfind.
  pose proof (run_verify_payment_found E n d payload o Hfind) as Hrun.
  pose proof (find_one_verified E n payload o d Hok Hfind) as Hfind1.
  eexists _, _, _. split; [exact Hrun|].
  split; [apply OrderFacts.update_one_length|].
  split; [apply MongoFacts.update_one_ids|].
  split; [intros o' Hin Hne; now apply OrderFacts.update_one_others|].
  split; [exact Hfind1|]. repeat split.
Qed.

Lemma verify_payment_changes_one_order_example :
  ∃ r d1 (o1 : Order.doc),
    run Fixture.world (verify_payment Fixture.pay) 0 (Some Fixture.shop)
    = (inr r, Some d1, 6%nat)
    ∧ length (order d1) = 1%nat
    ∧ map Order._id (order d1) = [ObjectId "65a1b2c3d4e5f60718293a43"]
    ∧ (∀ o' : Order.doc, o' ∈ order Fixture.shop →
         Order._id o' ≠ Order._id Fixture.an_order → o' ∈ order d1)
    ∧ Mongo.find_one (order_id Fixture.pay) (order d1) = Some o1
    ∧ Order._id o1 = Order._id Fixture.an_order
    ∧ Order.user_email o1 = Some "a@b.c"
    ∧ Order.items o1 = Some Fixture.cart
    ∧ Order.amount o1 = Some 24%float
    ∧ Order.created_at o1 = Some (Fixture.moment 2026 1)
    ∧ Order.order_id o1 = Some "order_18293a43".
Proof.
  exact (verify_payment_changes_one_order Fixture.world 0 Fixture.shop Fixture.pay
           Fixture.an_order stored_ok_shop eq_refl).
Defined.

(** X11.  The payment id a verification stores: the one supplied, unless
    it is missing or the empty string; then "pay_" followed by the end of
    the order's ["_id"], six characters of it (all of it when it is
    shorter). *)
Theorem verify_payment_payment_id E n d payload (o : Order.doc) :
  stored_ok d →
  Mongo.find_one (order_id payload) (order d) = Some o →
  ∃ r d1 (o1 : Order.doc) tail,
    run E (verify_payment payload) n (Some d) = (inr r, Some d1, (6 + n)%nat)
    ∧ Mongo.find_one (order_id payload) (order d1) = Some o1
    ∧ (∃ head, str_id (Order._id o) = head +:+ tail)
    ∧ String.length tail = Nat.min 6 (String.length (str_id (Order._id o)))
    ∧ (payment_id payload = None ∨ payment_id payload = Some EmptyString →
       Order.payment_id o1 = Some ("pay_" +:+ tail))
    ∧ (∀ c s, payment_id payload = Some (String c s) →
       Order.payment_id o1 = Some (String c s)).
Proof.
  intros Hok Hfind.
  pose proof (run_verify_payment_found E n d payload o Hfind) as Hrun.
  pose proof (find_one_verified E n payload o d Hok Hfind) as Hfind1.
  destruct (SliceFacts.last_chars_suffix 6 (str_id (Order._id o))) as (head & Hs & Hlen).
  eexists _, _, _, (Py.last_chars 6 (str_id (Order._id o))).
  split; [exact Hrun|]. split; [exact Hfind1|].
  split; [now exists head|]. split; [exact Hlen|]. split.
  - intros [H|H]; simpl; now rewrite H.
  - intros c s H. simpl. now rewrite H.
Qed.

Lemma verify_payment_payment_id_example :
  ∃ r d1 (o1 : Order.doc) tail,
    run Fixture.world (verify_payment (Sample.pay_with (Some EmptyString))) 0
      (Some Fixture.shop)
    = (inr r, Some d1, 6%nat)
    ∧ Mongo.find_one "order_18293a43" (order d1) = Some o1
    ∧ (∃ head, "65a1b2c3d4e5f60718293a43" = head +:+ tail)
    ∧ String.length tail = 6%nat
    ∧ (Some EmptyString = None ∨ Some EmptyString = Some EmptyString →
       Order.payment_id o1 = Some ("pay_" +:+ tail))
    ∧ (∀ c s, Some EmptyString = Some (String c s) →
       Order.payment_id o1 = Some (String c s)).
Proof.
  exact (verify_payment_payment_id Fixture.world 0 Fixture.shop
           (Sample.pay_with (Some EmptyString)) Fixture.an_order stored_ok_shop eq_refl).
Defined.

Lemma create_order_response E n db payload r db' n' :
  run E (create_order payload) n db = (inr r, db', n') →
  OrderCreated.order_id r = "order_" +:+ Py.last_chars 8 (OrderCreated._id r)
  ∧ OrderCreated.currency r = "INR"
  ∧ OrderCreated.status r = "created"
  ∧ n' = (5 + n)%nat.
Proof.
  unfold create_order. cbn.
  destruct (bool_decide (db = None)); cbn; [discriminate|].
  destruct (_order_total (items payload)) as [a|]; cbn; [|discriminate].
  destruct db as [d|]; cbn; [|discriminate].
  destruct (Mongo.insert_one _ _ _); cbn; [discriminate|].
  intros [= <- _ <-]. repeat split.
Qed.

(** X12.  Whenever [create_order] answers, the [order_id] is "order_"
    followed by the end of the answered ["_id"], eight characters of it
    (all of it when it is shorter); the currency is "INR" and the status
    "created". *)
Theorem create_order_answers_gateway_id E n db payload r db' n' :
  run E (create_order payload) n db = (inr r, db', n') →
  ∃ head tail,
    OrderCreated._id r = head +:+ tail
    ∧ String.length tail = Nat.min 8 (String.length (OrderCreated._id r))
    ∧ OrderCreated.order_id r = "order_" +:+ tail
    ∧ OrderCreated.currency r = "INR"
    ∧ OrderCreated.status r = "created".
Proof.
  intros Hrun. apply create_order_response in Hrun as (Hid & Hcur & Hst & _).
  destruct (SliceFacts.last_chars_suffix 8 (OrderCreated._id r)) as (head & Hs & Hlen).
  exists head, (Py.last_chars 8 (OrderCreated._id r)). auto.
Qed.

Lemma create_order_answers_gateway_id_example :
  ∃ head tail,
    "65a1b2c3d4e5f60718200003" = head +:+ tail
    ∧ String.length tail = 8%nat
    ∧ "order_18200003" = "order_" +:+ tail
    ∧ "INR" = "INR"
    ∧ "created" = "created".
Proof.
  exact (create_order_answers_gateway_id Fixture.world 0 (Some Fixture.empty_db)
           Fixture.order_in _ _ _ eq_refl).
Defined.

(** ** Signs of doubles *)

Module SignFacts.

Lemma shr_1_nonneg mrs : 0 <= shr_m mrs → 0 <= shr_m (shr_1 mrs).
Proof. destruct mrs as [[|[p|p|]|p] r s]; simpl; lia. Qed.

Lemma iter_shr_1_nonneg p mrs :
  0 <= shr_m mrs → 0 <= shr_m (SpecFloat.iter_pos shr_1 p mrs).
Proof.
  revert mrs. induction p as [p IH|p IH|]; intros mrs H; simpl;
    auto using shr_1_nonneg.
Qed.

Lemma shr_fexp_nonneg m e l : 0 <= m → 0 <= shr_m (shr_fexp 53 1024 m e l).1.
Proof.
  intros H. unfold shr_fexp, shr.
  destruct (fexp 53 1024 (Zdigits2 m + e) - e) as [|p|p]; simpl;
    rewrite ?FloatFacts.shr_m_of_loc; try assumption.
  apply iter_shr_1_nonneg. now rewrite FloatFacts.shr_m_of_loc.
Qed.

Lemma round_nearest_even_ge m l : m <= round_nearest_even m l.
Proof. destruct l as [|[]]; simpl; try lia. destruct (Z.even m); lia. Qed.

(** Rounding a mantissa that is not negative gives a zero, a number or an
    infinity of the sign asked for. *)
Lemma binary_round_aux_sign sx mx ex lx :
  0 <= mx →
  match binary_round_aux 53 1024 sx mx ex lx with
  | S754_zero s | S754_infinity s | S754_finite s _ _ => s = sx
  | S754_nan => False
  end.
Proof.
  intros Hm. unfold binary_round_aux.
  pose proof (shr_fexp_nonneg mx ex lx Hm) as H1.
  destruct (shr_fexp 53 1024 mx ex lx) as [mrs' e']. simpl in H1.
  pose proof (round_nearest_even_ge (shr_m mrs') (loc_of_shr_record mrs')) as H2.
  pose proof (shr_fexp_nonneg (round_nearest_even (shr_m mrs') (loc_of_shr_record mrs'))
                e' loc_Exact ltac:(lia)) as H3.
  destruct (shr_fexp 53 1024 _ e' loc_Exact) as [mrs'' e'']. simpl in H3.
  destruct (shr_m mrs'') as [|m|m]; [reflexivity | | lia].
  destruct (e'' <=? 1024 - 53); reflexivity.
Qed.

Lemma binary_round_sign sx mx ex :
  match binary_round 53 1024 sx mx ex with
  | S754_zero s | S754_infinity s | S754_finite s _ _ => s = sx
  | S754_nan => False
  end.
Proof.
  unfold binary_round.
  destruct (shl_align mx ex _) as [mz ez]. now apply binary_round_aux_sign.
Qed.

Lemma mul_nonneg x y m e :
  nonneg_sf x → y = S754_finite false m e → nonneg_sf (SFmul 53 1024 x y).
Proof.
  intros Hx ->. destruct x as [s|s| |s mx ex]; simpl in *; try exact I; try tauto.
  - now subst s.
  - subst s. simpl.
    pose proof (binary_round_aux_sign false (Z.pos (mx * m)) (ex + e) loc_Exact
                  ltac:(lia)) as H.
    destruct (binary_round_aux 53 1024 false _ _ _); simpl; tauto.
Qed.

Lemma add_nonneg x y :
  nonneg_sf x → nonneg_sf y → nonneg_sf (SFadd 53 1024 x y).
Proof.
  intros Hx Hy.
  destruct x as [sx|sx| |sx mx ex], y as [sy|sy| |sy my ey];
    simpl in Hx, Hy; try contradiction; subst; simpl; try exact I; try reflexivity.
  - destruct sx, sy; exact I.
  - match goal with
    | |- nonneg_sf (binary_round _ _ _ ?m ?e) =>
        pose proof (binary_round_sign false m e) as H;
        destruct (binary_round 53 1024 false m e); simpl; tauto
    end.
Qed.

Lemma leb_zero x : (0 <=? x)%float = true ↔ nonneg_sf (Prim2SF x).
Proof.
  rewrite leb_spec.
  change (Prim2SF 0%float) with (S754_zero false).
  destruct (Prim2SF x) as [s|s| |s m e]; simpl; unfold SFleb; simpl.
  - tauto.
  - destruct s; simpl; split; intros; try congruence; try reflexivity.
  - split; [discriminate | tauto].
  - destruct s; simpl; split; intros; try congruence; try reflexivity.
Qed.

End SignFacts.

Module PositiveFacts.

Lemma digits2_lower p : 2 ^ (Z.pos (digits2_pos p) - 1) <= Z.pos p.
Proof.
  rewrite FloatFacts.digits2_size.
  pose proof (Pos.size_le p) as Hle.
  assert (Hz : 2 ^ Z.pos (Pos.size p) <= 2 * Z.pos p).
  { change (2 * Z.pos p) with (Z.pos (p~0)).
    change 2 with (Z.pos 2) at 1. rewrite <- Pos2Z.inj_pow.
    apply Pos2Z.pos_le_pos. exact Hle. }
  replace (Z.pos (Pos.size p)) with (Z.pos (Pos.size p) - 1 + 1) in Hz by lia.
  rewrite Z.pow_add_r in Hz by lia. lia.
Qed.

Lemma shr_1_lower k mrs :
  1 <= k → 2 ^ k <= shr_m mrs → 2 ^ (k - 1) <= shr_m (shr_1 mrs).
Proof.
  intros Hk. replace k with (k - 1 + 1) at 1 by lia.
  rewrite Z.pow_add_r by lia.
  assert (0 < 2 ^ (k - 1)) by (apply Z.pow_pos_nonneg; lia).
  destruct mrs as [[|[p|p|]|p] r s]; simpl; lia.
Qed.

Lemma iter_shr_1_lower p : ∀ k mrs,
  Z.pos p <= k → 2 ^ k <= shr_m mrs →
  2 ^ (k - Z.pos p) <= shr_m (SpecFloat.iter_pos shr_1 p mrs).
Proof.
  induction p as [p IH|p IH|]; intros k mrs Hk Hm; simpl.
  - replace (k - Z.pos p~1) with (k - 1 - Z.pos p - Z.pos p) by lia.
    apply IH; [lia|]. apply IH; [lia|]. apply shr_1_lower; [lia | exact Hm].
  - replace (k - Z.pos p~0) with (k - Z.pos p - Z.pos p) by lia.
    apply IH; [lia|]. apply IH; [lia | exact Hm].
  - apply shr_1_lower; [lia | exact Hm].
Qed.

Lemma shr_fexp_pos p e l :
  -1021 <= Z.pos (digits2_pos p) + e →
  0 < shr_m (shr_fexp 53 1024 (Z.pos p) e l).1
  ∧ e <= (shr_fexp 53 1024 (Z.pos p) e l).2.
Proof.
  intros He. unfold shr_fexp, shr, fexp, emin. simpl Zdigits2.
  pose proof (digits2_lower p) as Hd.
  destruct (Z.max (Z.pos (digits2_pos p) + e - 53) (3 - 1024 - 53) - e)
    as [|n|n] eqn:Hn; simpl; rewrite ?FloatFacts.shr_m_of_loc; try lia.
  split; [|lia].
  assert (Hshift : Z.pos n <= Z.pos (digits2_pos p) - 1) by lia.
  pose proof (iter_shr_1_lower n (Z.pos (digits2_pos p) - 1)
                (shr_record_of_loc (Z.pos p) l) Hshift) as H.
  rewrite FloatFacts.shr_m_of_loc in H. specialize (H Hd).
  assert (0 < 2 ^ (Z.pos (digits2_pos p) - 1 - Z.pos n))
    by (apply Z.pow_pos_nonneg; lia).
  lia.
Qed.

Lemma binary_round_aux_nonzero sx p ex lx :
  -1022 <= ex →
  ∀ s, binary_round_aux 53 1024 sx (Z.pos p) ex lx ≠ S754_zero s.
Proof.
  intros He s. unfold binary_round_aux.
  destruct (shr_fexp_pos p ex lx) as [H1 H1e]; [lia|].
  destruct (shr_fexp 53 1024 (Z.pos p) ex lx) as [mrs' e']. simpl in H1, H1e.
  pose proof (SignFacts.round_nearest_even_ge (shr_m mrs') (loc_of_shr_record mrs')) as H2.
  destruct (round_nearest_even (shr_m mrs') (loc_of_shr_record mrs')) as [|m2|m2];
    try lia.
  destruct (shr_fexp_pos m2 e' loc_Exact) as [H3 _]; [lia|].
  destruct (shr_fexp 53 1024 (Z.pos m2) e' loc_Exact) as [mrs'' e'']. simpl in H3.
  destruct (shr_m mrs'') as [|m|m]; try lia.
  destruct (e'' <=? 1024 - 53); discriminate.
Qed.

Lemma binary_round_nonzero sx mx :
  ∀ s, binary_round 53 1024 sx mx 0 ≠ S754_zero s.
Proof.
  intros s. unfold binary_round, shl_align, fexp, emin.
  destruct (Z.max (Z.pos (digits2_pos mx) + 0 - 53) (3 - 1024 - 53) - 0)
    as [|k|k] eqn:Hk; apply binary_round_aux_nonzero; lia.
Qed.

(** A positive integer below [2^64] rounds to a positive double. *)
Lemma binary_round_positive mx :
  Z.pos mx < 2 ^ 64 →
  ∃ m e, binary_round 53 1024 false mx 0 = S754_finite false m e.
Proof.
  intros Hm.
  pose proof (SignFacts.binary_round_sign false mx 0) as Hs.
  pose proof (binary_round_nonzero false mx) as Hz.
  pose proof (FloatFacts.binary_round_finite false mx Hm) as Hi.
  destruct (binary_round 53 1024 false mx 0) as [s|s| |s m e].
  - now destruct (Hz s).
  - now destruct (Hi s).
  - destruct Hs.
  - subst s. eauto.
Qed.

(** [float(q)] for a positive [q] that fits BSON is a positive double. *)
Lemma float_of_int_positive q :
  1 <= q → Mongo.int64 q = true →
  ∃ y m e, Py.float_of_int q = Some y ∧ Prim2SF y = S754_finite false m e.
Proof.
  intros Hq H. unfold Mongo.int64 in H. apply andb_prop in H as [_ Hhi].
  apply Z.ltb_lt in Hhi.
  destruct q as [|p|p]; try lia.
  destruct (binary_round_positive p ltac:(lia)) as (m & e & Hr).
  assert (Hspec : Prim2SF (of_uint63 (Uint63.of_Z (Z.pos p))) = S754_finite false m e).
  { rewrite of_uint63_spec, Uint63.of_Z_spec, Z.mod_small
      by (change Uint63.wB with (2 ^ 63); lia).
    exact Hr. }
  exists (of_uint63 (Uint63.of_Z (Z.pos p))), m, e. split; [|exact Hspec].
  unfold Py.float_of_int.
  change (binary_normalize prec emax (Z.pos p) 0 false)
    with (binary_round 53 1024 false p 0).
  rewrite Hr, <- Hspec, SF2Prim_Prim2SF. reflexivity.
Qed.

End PositiveFacts.

(** ** Order totals *)

Lemma sum_products_nonneg l : ∀ acc,
  nonneg_sf (Prim2SF acc) →
  forallb schemas.CartItem_constraints l = true →
  forallb (fun i => Mongo.int64 (quantity i)) l = true →
  ∃ a, sum_products acc l = Some a ∧ nonneg_sf (Prim2SF a).
Proof.
  induction l as [|i l IH]; intros acc Hacc Hc Hq; simpl; [eauto|].
  simpl in Hc, Hq.
  apply andb_prop in Hc as [Hi Hc]. apply andb_prop in Hq as [Hqi Hq].
  unfold schemas.CartItem_constraints in Hi. apply andb_prop in Hi as [Hge Hprice].
  apply Z.leb_le in Hge. apply SignFacts.leb_zero in Hprice.
  destruct (PositiveFacts.float_of_int_positive (quantity i) Hge Hqi)
    as (y & m & e & Hy & Hsf).
  unfold Py.float_mul_int. rewrite Hy.
  apply IH; [|assumption..].
  rewrite add_spec. apply SignFacts.add_nonneg; [exact Hacc|].
  rewrite mul_spec. now apply (SignFacts.mul_nonneg _ _ m e).
Qed.

(** X13.  Under the constraints of [schemas.CartItem] (quantity at least
    1, price at least 0) and with quantities that fit BSON, the order
    total is computed and is a double that is at least 0, never NaN: it
    meets the bound [ge=0] that [schemas.Order] puts on [amount]. *)
Theorem constrained_cart_total_is_nonnegative l :
  forallb schemas.CartItem_constraints l = true →
  forallb (fun i => Mongo.int64 (quantity i)) l = true →
  ∃ a, _order_total l = Some a ∧ (0 <=? a)%float = true.
Proof.
  intros Hc Hq.
  destruct (sum_products_nonneg l 0%float I Hc Hq) as (a & Ha & Hn).
  exists a. split; [exact Ha|]. now apply SignFacts.leb_zero.
Qed.

Lemma example_cart_total_is_nonnegative :
  ∃ a, _order_total Fixture.cart = Some a ∧ (0 <=? a)%float = true.
Proof.
  exact (constrained_cart_total_is_nonnegative Fixture.cart eq_refl eq_refl).
Defined.

(** X14.  With quantities that fit BSON, [_order_total] never raises:
    every product and the sum are doubles (possibly infinite or NaN, as
    the prices are). *)
Theorem order_total_defined_for_bson_quantities l :
  forallb (fun i => Mongo.int64 (quantity i)) l = true →
  ∃ amounts,
    line_amounts l = Some amounts
    ∧ length amounts = length l
    ∧ _order_total l = Some (float_sum amounts).
Proof.
  intros Hq. destruct (line_amounts_int64 l Hq) as [amounts Ha].
  exists amounts. split; [exact Ha|]. split.
  - unfold line_amounts in Ha. apply length_mapM in Ha. now symmetry.
  - now rewrite order_total_spec, Ha.
Qed.

Lemma order_total_defined_for_example_cart :
  ∃ amounts,
    line_amounts Fixture.cart = Some amounts
    ∧ length amounts = 2%nat
    ∧ _order_total Fixture.cart = Some (float_sum amounts).
Proof.
  exact (order_total_defined_for_bson_quantities Fixture.cart eq_refl).
Defined.



(** X16.  A quantity too large for a double makes [create_order] raise
    [OverflowError] straight after the database check: nothing is stored
    and the clock is not read. *)
Theorem create_order_overflow E n d payload (i : CartItem) :
  i ∈ items payload →
  Py.float_of_int (quantity i) = None →
  run E (create_order payload) n (Some d) = (inl OverflowError, Some d, S n).
Proof.
  intros Hin Hq.
  assert (Ht : _order_total (items payload) = None).
  { unfold _order_total. generalize 0%float.
    induction (items payload) as [|j l IH]; intros acc; [now apply elem_of_nil in Hin|].
    simpl. apply elem_of_cons in Hin as [<-|Hin].
    - unfold Py.float_mul_int. now rewrite Hq.
    - destruct (Py.float_mul_int (price j) (quantity j)); [now apply IH | reflexivity]. }
  unfold create_order. cbn. now rewrite Ht.
Qed.

Lemma create_order_overflow_example :
  run Fixture.world
    (create_order {| user_email := "a@b.c";
                     items := [ {| product_id := "p1"; title := "Widget";
                                   quantity := 2 ^ 1024; price := 1 |} ] |})
    0 (Some Fixture.empty_db)
  = (inl OverflowError, Some Fixture.empty_db, 1%nat).
Proof.
  apply (create_order_overflow Fixture.world 0 Fixture.empty_db _
           {| product_id := "p1"; title := "Widget"; quantity := 2 ^ 1024; price := 1 |}).
  - apply list_elem_of_here.
  - vm_compute. reflexivity.
Defined.

(** X17.  An empty cart is not refused: [create_order] stores and answers
    an order with amount 0.0 and status "created". *)
Theorem create_order_accepts_empty_cart E n d payload :
  items payload = [] →
  existsb (Mongo.has_id (ObjectId (new_oid (E (3 + n)%nat)))) (order d) = false →
  run E (create_order payload) n (Some d)
  = (inr {| OrderCreated._id := new_oid (E (3 + n)%nat);
            OrderCreated.order_id := gateway_order_id (ObjectId (new_oid (E (3 + n)%nat)));
            OrderCreated.amount := 0%float;
            OrderCreated.currency := "INR";
            OrderCreated.status := "created" |},
     Some {| order := order d ++ [stored_order E n payload 0%float];
             invoicesequence := invoicesequence d |},
     (5 + n)%nat).
Proof.
  intros Hitems Hfresh. apply run_create_order; [| |exact Hfresh]; now rewrite Hitems.
Qed.

Lemma create_order_accepts_empty_cart_example :
  (run Fixture.world (create_order {| user_email := "a@b.c"; items := [] |}) 0
     (Some Fixture.empty_db)).1.1
  = inr {| OrderCreated._id := "65a1b2c3d4e5f60718200003";
           OrderCreated.order_id := "order_18200003";
           OrderCreated.amount := 0%float;
           OrderCreated.currency := "INR";
           OrderCreated.status := "created" |}.
Proof.
  rewrite (create_order_accepts_empty_cart Fixture.world 0 Fixture.empty_db
             {| user_email := "a@b.c"; items := [] |} eq_refl eq_refl).
  reflexivity.
Defined.

(** X18.  An invoice identifier determines its year and its number: two
    identifiers are equal only if both agree. *)
Theorem invoice_identifier_determines_year_and_number y n y' n' :
  invoice_format y n = invoice_format y' n' ↔ y = y' ∧ n = n'.
Proof.
  split; [apply FormatFacts.invoice_format_inj | now intros [-> ->]].
Qed.
